(** * Anka: the editor extension and the execution core

    The repository ships one program, the VS Code extension
    [vscode-anka/src/extension.ts], which drives the [anka] command line
    (check / run / parse) and renders what it prints.  Module [Extension]
    embeds that file: the commands it builds, the callbacks it runs on the
    subprocess' result, and the editor effects it performs, recorded as a
    trace.

    The interpreter behind the command line is documented but not part of
    the sources at hand; module [Core] models the parts of it the
    properties below speak about, following the written specification. *)

From Stdlib Require Import ZArith QArith Ascii String.
From stdpp Require Import base option list strings pretty gmap.

Local Open Scope Z_scope.
Set Warnings "-register-all".

(** ** Characters and JavaScript truthiness of strings *)

Definition dquote : string := String (ascii_of_nat 34) EmptyString.
Definition newline : string := String (ascii_of_nat 10) EmptyString.

(** [`"${s}"`]: a template literal that wraps [s] in double quotes. *)
Definition quoted (s : string) : string := dquote +:+ s +:+ dquote.

(** A string is falsy exactly when it is empty. *)
Definition truthy (s : string) : bool :=
  match s with
  | EmptyString => false
  | String _ _ => true
  end.

(** An optional string ([string | undefined]) used as a condition. *)
Definition truthy_opt (o : option string) : bool :=
  match o with
  | Some s => truthy s
  | None => false
  end.

(** [a || b] on strings. *)
Definition or_else (a b : string) : string := if truthy a then a else b.

(** ** JavaScript numbers *)

(** The numbers the extension computes with: doubles whose value is an
    integer, and the two infinities. *)
Inductive Number := Finite (z : Z) | PosInfinity | NegInfinity.

(** The double nearest to an integer: exact below 2^53, rounded to 53
    significant bits (ties to even) above, an infinity beyond the largest
    double.  It is what [JSON.parse] makes of an integer literal and what
    an addition returns when the exact sum is that integer. *)
Definition round_to_double (z : Z) : Number :=
  let m := Z.abs z in
  if m <? 2 ^ 53 then Finite z
  else
    let k := Z.log2 m - 52 in
    let q := m / 2 ^ k in
    let rest := m mod 2 ^ k in
    let half := 2 ^ (k - 1) in
    let q' := if (half <? rest) || ((rest =? half) && Z.odd q) then q + 1 else q in
    let r := q' * 2 ^ k in
    if 2 ^ 1024 <=? r then (if 0 <? z then PosInfinity else NegInfinity)
    else Finite (Z.sgn z * r).

(** [a + k] for an integer constant [k]. *)
Definition js_add (a : Number) (k : Z) : Number :=
  match a with
  | Finite z => round_to_double (z + k)
  | PosInfinity => PosInfinity
  | NegInfinity => NegInfinity
  end.

(** [Math.max(0, a)] *)
Definition js_max0 (a : Number) : Number :=
  match a with
  | Finite z => Finite (Z.max 0 z)
  | PosInfinity => PosInfinity
  | NegInfinity => Finite 0
  end.

(** [(n || d)] on an optional number: [undefined] and [0] are falsy. *)
Definition num_or (n : option Number) (d : Number) : Number :=
  match n with
  | Some (Finite 0) => d
  | Some k => k
  | None => d
  end.

(** ** The part of the editor API the extension touches *)

Module Vscode.

Inductive DiagnosticSeverity := SevError | SevWarning | SevInformation | SevHint.

  (** [new vscode.Range(startLine, startCharacter, endLine, endCharacter)] *)
Record Range := mkRange {
    startLine : Number;
    startCharacter : Number;
    endLine : Number;
    endCharacter : Number
  }.

  (** [new vscode.Diagnostic(range, message, severity)], with the optional
      [source] property. *)
Record Diagnostic := mkDiagnostic {
    range : Range;
    message : string;
    severity : DiagnosticSeverity;
    source : option string
  }.

Record TextDocument := mkTextDocument {
    fsPath : string;        (* document.uri.fsPath, also the key of document.uri *)
    languageId : string;
    isDirty : bool          (* the document has unsaved changes *)
  }.

  (** What the extension does to the editor and the operating system, in
      program order. *)
Inductive Effect :=
  | Exec (command : string) (cwd : option string)
  | ShowInformationMessage (text : string)
  | ShowErrorMessage (text : string)
  | DiagnosticsSet (uri : string) (ds : list Diagnostic)
  | CreateOutputChannel (name : string)
  | ChannelShow
  | ChannelClear
  | ChannelAppendLine (text : string)
  | DocumentSave (uri : string).

  (** The state those effects act on.  [diagnosticCollection.set(uri, ds)]
      replaces whatever the collection held for [uri]. *)
Record Editor := mkEditor {
    diagnosticCollection : gmap string (list Diagnostic);
    notifications : list string;
    channel : list string;
    spawned : list string
  }.

Definition apply_effect (ed : Editor) (e : Effect) : Editor :=
    match e with
    | Exec c _ =>
        mkEditor (diagnosticCollection ed) (notifications ed) (channel ed)
                 (spawned ed ++ [c])
    | ShowInformationMessage t | ShowErrorMessage t =>
        mkEditor (diagnosticCollection ed) (notifications ed ++ [t]) (channel ed)
                 (spawned ed)
    | DiagnosticsSet u ds =>
        mkEditor (<[u := ds]> (diagnosticCollection ed)) (notifications ed)
                 (channel ed) (spawned ed)
    | CreateOutputChannel _ | ChannelShow | DocumentSave _ => ed
    | ChannelClear =>
        mkEditor (diagnosticCollection ed) (notifications ed) [] (spawned ed)
    | ChannelAppendLine t =>
        mkEditor (diagnosticCollection ed) (notifications ed) (channel ed ++ [t])
                 (spawned ed)
    end.

Definition apply_effects (ed : Editor) (es : list Effect) : Editor :=
    foldl apply_effect ed es.

End Vscode.

(** ** extension.ts *)

Module Extension.
Import Vscode.

  (** Modelled from the spec: the diagnostics interface the checker prints,
      an ordered list of [{ severity: error|warning, line: int, column: int,
      message: string }].  The declaration of this JSON shape is not in the
      sources; [line] and [column] are optional because the extension
      defaults them, and hold the integer the checker printed. *)
Inductive Severity := error | warning.

Record DiagnosticEntry := mkEntry {
    entry_severity : Severity;
    line : option Z;
    column : option Z;
    entry_message : string
  }.

  (** The two properties of the parsed checker output that [checkAnkaFile]
      reads: [result.status] and [result.errors].  An entry of [errors]
      that is not an object of the interface (a [null], a string, ...)
      makes the loop body throw just as an entry without message does, and
      reads as one. *)
Record CheckResult := mkCheckResult {
    status : option string;
    errors : option (list DiagnosticEntry)
  }.

  (** [error.code] of a failed [child_process.exec]. *)
Inductive ExitCode :=
| CodeNumber (n : Z)
| CodeString (s : string)
| CodeNull
| CodeUndefined.

Record ExecException := mkExecException { code : ExitCode }.

  (** The arguments [cp.exec] passes to its callback. *)
Record ExecResult := mkExecResult {
    exec_error : option ExecException;
    stdout : string;
    stderr : string
  }.

  (** [vscode.workspace.getConfiguration('anka')] and
      [vscode.workspace.rootPath]. *)
Record Settings := mkSettings {
    pythonPath : option string;
    checkOnSave : option bool;
    rootPath : option string
  }.

  (** The runtime underneath the extension: Node's [JSON], [path] and
      [child_process].  [JSON_parse] is [None] where [JSON.parse] throws;
      [JSON_stringify v] is [JSON.stringify(v, null, 2)]; [check_result]
      reads [status] and [errors] off a parsed value and is [None] for the
      value [null], on which reading [result.status] throws; [cp_exec] is
      the outcome of running a command line in a working directory. *)
Class Runtime := {
    json : Type;
    JSON_parse : string -> option json;
    JSON_stringify : json -> string;
    check_result : json -> option CheckResult;
    path_dirname : string -> string;
    path_isAbsolute : string -> bool;
    path_join : string -> string -> string;
    cp_exec : string -> option string -> ExecResult
  }.

Definition show_code (c : ExitCode) : string :=
    match c with
    | CodeNumber n => pretty n
    | CodeString s => s
    | CodeNull => "null"
    | CodeUndefined => "undefined"
    end.

Section WithRuntime.
Context `{RT : Runtime}.
Variable settings : Settings.

    (** [getPythonPath] *)
Definition getPythonPath : string := default "python" (pythonPath settings).

    (** *** runAnkaFile *)

Definition run_command_line (python filePath input : string) : string :=
      quoted python +:+ " -m anka run " +:+ quoted filePath +:+ " "
        +:+ quoted input +:+ " --json".

Definition parse_command_line (python filePath : string) : string :=
      quoted python +:+ " -m anka parse " +:+ quoted filePath.

Definition resolvedInputPath (filePath inputFile : string) : string :=
      let ankaDir := path_dirname filePath in
      if path_isAbsolute inputFile then inputFile
      else path_join ankaDir inputFile.

Definition runCommandLine (filePath : string) (inputFile : option string) : string :=
      match inputFile with
      | Some f =>
          if truthy f
          then run_command_line getPythonPath filePath (resolvedInputPath filePath f)
          else parse_command_line getPythonPath filePath
      | None => parse_command_line getPythonPath filePath
      end.

    (** The callback given to [cp.exec] by [runAnkaFile]. *)
Definition runCallback (r : ExecResult) : list Effect :=
      (if truthy (stdout r) then
         match JSON_parse (stdout r) with
         | Some v => [ChannelAppendLine (JSON_stringify v)]
         | None => [ChannelAppendLine (stdout r)]
         end
       else [])
      ++ (if truthy (stderr r) then [ChannelAppendLine ("Error: " +:+ stderr r)] else [])
      ++ (match exec_error r with
          | Some e => [ChannelAppendLine ("Exit code: " +:+ show_code (code e))]
          | None => []
          end).

Definition runAnkaFile (filePath : string) (inputFile : option string) : list Effect :=
      let command := runCommandLine filePath inputFile in
      [CreateOutputChannel "Anka"; ChannelShow; ChannelClear;
       ChannelAppendLine ("Running: " +:+ command +:+ newline);
       Exec command (rootPath settings)]
      ++ runCallback (cp_exec command (rootPath settings)).

    (** *** checkAnkaFile *)

Definition check_command_line (python filePath : string) : string :=
      quoted python +:+ " -m anka check " +:+ quoted filePath +:+ " --json".

    (** [new vscode.Diagnostic(range, message, vscode.DiagnosticSeverity.Error)]:
        the constructor throws ([None]) when the message is empty or
        missing. *)
Definition newDiagnostic (range : Range) (message : string) : option Diagnostic :=
      if truthy message then Some (mkDiagnostic range message SevError None)
      else None.

    (** The body of the [for (const err of result.errors)] loop: the
        diagnostic it pushes, or [None] when it throws. *)
Definition toDiagnostic (err : DiagnosticEntry) : option Diagnostic :=
      let l := js_max0 (js_add (num_or (round_to_double <$> line err) (Finite 1)) (-1)) in
      let c := js_max0 (js_add (num_or (round_to_double <$> column err) (Finite 1)) (-1)) in
      match newDiagnostic (mkRange l c l (js_add c 10)) (entry_message err) with
      | Some diagnostic =>
          Some (mkDiagnostic (range diagnostic) (message diagnostic)
                             (severity diagnostic) (Some "anka"))
      | None => None
      end.

    (** The fallback diagnostics; both call sites pass a non-empty text. *)
Definition fallbackDiagnostic (text : string) : Diagnostic :=
      mkDiagnostic (mkRange (Finite 0) (Finite 0) (Finite 0) (Finite 10))
                   text SevError None.

    (** The loop over [result.errors]: the diagnostics pushed, and whether
        the loop was left by an exception. *)
Fixpoint pushDiagnostics (es : list DiagnosticEntry) : list Diagnostic * bool :=
      match es with
      | [] => ([], false)
      | err :: es' =>
          match toDiagnostic err with
          | Some d => let (ds, thrown) := pushDiagnostics es' in (d :: ds, thrown)
          | None => ([], true)
          end
      end.

    (** The [catch] block: what it adds to the diagnostics pushed so far. *)
Definition caught (r : ExecResult) : list Diagnostic :=
      if truthy (stderr r) then [fallbackDiagnostic (stderr r)] else [].

    (** The [if (stdout) { try { ... } catch { ... } }] part of the callback:
        the notifications it shows and the diagnostics it has pushed.  The
        [try] encloses the parse, the reading of [result.status], the loop
        and the constructor. *)
Definition parsedDiagnostics (r : ExecResult) : list Effect * list Diagnostic :=
      if truthy (stdout r) then
        match JSON_parse (stdout r) with
        | Some v =>
            match check_result v with
            | Some result =>
                if bool_decide (status result = Some "ok")
                then ([ShowInformationMessage "Anka: No syntax errors"], [])
                else match errors result with
                     | Some (e :: es) =>
                         let pushed := pushDiagnostics (e :: es) in
                         ([], if pushed.2 then pushed.1 ++ caught r else pushed.1)
                     | _ => ([], [])
                     end
            | None => ([], caught r)
            end
        | None => ([], caught r)
        end
      else ([], []).

    (** The diagnostics the callback ends up with, after the
        [if (error && diagnostics.length === 0)] fallback. *)
Definition checkDiagnostics (r : ExecResult) : list Diagnostic :=
      let diagnostics := (parsedDiagnostics r).2 in
      match exec_error r, diagnostics with
      | Some _, [] =>
          [fallbackDiagnostic (or_else (stderr r) "Unknown error occurred")]
      | _, _ => diagnostics
      end.

Definition checkCallback (document : TextDocument) (r : ExecResult) : list Effect :=
      (parsedDiagnostics r).1
      ++ [DiagnosticsSet (fsPath document) (checkDiagnostics r)].

Definition checkAnkaFile (document : TextDocument) : list Effect :=
      let command := check_command_line getPythonPath (fsPath document) in
      Exec command (rootPath settings)
      :: checkCallback document (cp_exec command (rootPath settings)).

    (** *** The commands registered by [activate] *)

Definition isAnkaEditor (editor : option TextDocument) : option TextDocument :=
      match editor with
      | Some d => if bool_decide (languageId d = "anka") then Some d else None
      | None => None
      end.

    (** The [onDidSaveTextDocument] listener. *)
Definition onSave (document : TextDocument) : list Effect :=
      if bool_decide (languageId document = "anka") then
        if default true (checkOnSave settings) then checkAnkaFile document else []
      else [].

    (** [await document.save()]: a document with unsaved changes is
        written, which fires [onDidSaveTextDocument] and so the listener
        above; a document without changes is not written. *)
Definition save (document : TextDocument) : list Effect :=
      DocumentSave (fsPath document)
      :: (if isDirty document then onSave document else []).

    (** [anka.run]; [inputBox] is what [showInputBox] resolved to. *)
Definition runCommand (editor : option TextDocument) (inputBox : option string)
      : list Effect :=
      match isAnkaEditor editor with
      | None => [ShowErrorMessage "Please open an Anka file first"]
      | Some d =>
          save d
          ++ runAnkaFile (fsPath d) (if truthy_opt inputBox then inputBox else None)
      end.

    (** [anka.check] and [anka.checkSyntax] *)
Definition checkCommand (editor : option TextDocument) : list Effect :=
      match isAnkaEditor editor with
      | None => [ShowErrorMessage "Please open an Anka file first"]
      | Some d => save d ++ checkAnkaFile d
      end.

End WithRuntime.

End Extension.


(** ** The execution core *)

Module Core.

(** Modelled from the spec: the closed set of failure categories ([ErrorKind],
    sections 4.6 and 7).  The interpreter that raises them is not in the
    sources. *)
Inductive ErrorKind :=
| TypeMismatch
| DivisionByZero
| UnknownIdentifier
| IndexOutOfRange
| AssertionFailed
| IOFailure
| HTTPFailure
| SchemaViolation
| LoopLimitExceeded
| TimeLimitExceeded.

(** Modelled from the spec: the error taxonomy of section 7 for errors that
    occur during execution: Runtime, IO/Network and Fatal. *)
Inductive Category := Runtime | IONetwork | Fatal.

Definition category (k : ErrorKind) : Category :=
  match k with
  | LoopLimitExceeded | TimeLimitExceeded => Fatal
  | IOFailure | HTTPFailure => IONetwork
  | _ => Runtime
  end.

(** Modelled from the spec: what TRY/ON_ERROR may catch (every execution
    error except the Fatal ones). *)
Definition catchable (k : ErrorKind) : bool :=
  match category k with
  | Fatal => false
  | _ => true
  end.

(** Modelled from the spec: the tagged-variant runtime value of section 3.
    DECIMAL is a rational, DATE a day number, DATETIME a second number; a
    Row is an ordered list of (column, value) and a Table an ordered list
    of Rows. *)
Inductive Value :=
| VInt (n : Z)
| VDecimal (q : Q)
| VString (s : string)
| VBool (b : bool)
| VDate (d : Z)
| VDateTime (t : Z)
| VNull
| VList (items : list Value)
| VTable (rows : list (list (string * Value))).

Abbreviation Row := (list (string * Value)).
Abbreviation Table := (list (list (string * Value))).
Abbreviation Scope := (gmap string Value).

(** Modelled from the spec: evaluation produces a Value or an error, given
    by its ErrorKind and message (section 4.4). *)
Inductive Result (A : Type) :=
| Ok (a : A)
| Err (k : ErrorKind) (msg : string).
Arguments Ok {A} a.
Arguments Err {A} k msg.

#[global] Instance Result_bind : MBind Result := fun A B f r =>
  match r with
  | Ok a => f a
  | Err k m => Err k m
  end.

Definition is_null (v : Value) : bool :=
  match v with
  | VNull => true
  | _ => false
  end.

(** BOOL [true] and nothing else. *)
Definition is_true (v : Value) : bool :=
  match v with
  | VBool true => true
  | _ => false
  end.

Definition as_number (v : Value) : option Q :=
  match v with
  | VInt n => Some (inject_Z n)
  | VDecimal q => Some q
  | _ => None
  end.

(** Modelled from the spec: structural equality of values (section 4.3);
    INT and DECIMAL compare by numeric value. *)
Fixpoint value_eqb (a b : Value) {struct a} : bool :=
  match a, b with
  | VInt x, VInt y => (x =? y)%Z
  | VInt x, VDecimal q => Qeq_bool (inject_Z x) q
  | VDecimal q, VInt x => Qeq_bool q (inject_Z x)
  | VDecimal p, VDecimal q => Qeq_bool p q
  | VString s, VString t => String.eqb s t
  | VBool x, VBool y => Bool.eqb x y
  | VDate x, VDate y => (x =? y)%Z
  | VDateTime x, VDateTime y => (x =? y)%Z
  | VNull, VNull => true
  | VList xs, VList ys =>
      (fix items_eqb (xs ys : list Value) {struct xs} : bool :=
         match xs, ys with
         | [], [] => true
         | x :: xs', y :: ys' => value_eqb x y && items_eqb xs' ys'
         | _, _ => false
         end) xs ys
  | VTable rs, VTable ss =>
      (fix rows_eqb (rs ss : Table) {struct rs} : bool :=
         match rs, ss with
         | [], [] => true
         | r :: rs', s :: ss' =>
             (fix row_eqb (r s : Row) {struct r} : bool :=
                match r, s with
                | [], [] => true
                | (c, x) :: r', (d, y) :: s' =>
                    String.eqb c d && value_eqb x y && row_eqb r' s'
                | _, _ => false
                end) r s && rows_eqb rs' ss'
         | _, _ => false
         end) rs ss
  | _, _ => false
  end.

Fixpoint values_eqb (xs ys : list Value) : bool :=
  match xs, ys with
  | [], [] => true
  | x :: xs', y :: ys' => value_eqb x y && values_eqb xs' ys'
  | _, _ => false
  end.

(** *** Expressions *)

(** Modelled from the spec: the expression forms of section 4.4 the
    properties below need: literals, identifiers, arithmetic, ordering and
    equality comparisons, AND / OR / NOT, IS_NULL and IS_NOT_NULL. *)
Inductive ArithOp := Add | Sub | Mul | Div.
Inductive OrdOp := Gt | Lt | Ge | Le.

Inductive Expr :=
| ELit (v : Value)
| EIdent (name : string)
| EArith (op : ArithOp) (a b : Expr)
| EOrd (op : OrdOp) (a b : Expr)
| EEq (a b : Expr)
| ENe (a b : Expr)
| EAnd (a b : Expr)
| EOr (a b : Expr)
| ENot (a : Expr)
| EIsNull (a : Expr)
| EIsNotNull (a : Expr).

Definition int_arith (op : ArithOp) (x y : Z) : Result Value :=
  match op with
  | Add => Ok (VInt (x + y))
  | Sub => Ok (VInt (x - y))
  | Mul => Ok (VInt (x * y))
  | Div => if (y =? 0)%Z then Err DivisionByZero "division by zero"
           else Ok (VInt (x / y))
  end.

Definition decimal_arith (op : ArithOp) (p q : Q) : Result Value :=
  match op with
  | Add => Ok (VDecimal (p + q))
  | Sub => Ok (VDecimal (p - q))
  | Mul => Ok (VDecimal (p * q))
  | Div => if Qeq_bool q 0 then Err DivisionByZero "division by zero"
           else Ok (VDecimal (p / q))
  end.

(** Modelled from the spec: [+ - * /] with numeric promotion (INT op DECIMAL
    is DECIMAL) and DivisionByZero (section 4.3).  A NULL operand propagates;
    the spec does not fix how INT / INT rounds, floor division is used. *)
Definition arith (op : ArithOp) (a b : Value) : Result Value :=
  match a, b with
  | VNull, _ | _, VNull => Ok VNull
  | VInt x, VInt y => int_arith op x y
  | VInt x, VDecimal q => decimal_arith op (inject_Z x) q
  | VDecimal p, VInt y => decimal_arith op p (inject_Z y)
  | VDecimal p, VDecimal q => decimal_arith op p q
  | _, _ => Err TypeMismatch "arithmetic on non-numeric operands"
  end.

Definition ord_of_comparison (op : OrdOp) (c : comparison) : bool :=
  match op, c with
  | Gt, Datatypes.Gt => true
  | Lt, Datatypes.Lt => true
  | Ge, (Datatypes.Gt | Datatypes.Eq) => true
  | Le, (Datatypes.Lt | Datatypes.Eq) => true
  | _, _ => false
  end.

(** Modelled from the spec: ordering comparisons [> < >= <=] under
    three-valued logic: a NULL operand makes the comparison BOOL false
    (section 4.3).  Numbers, strings, dates and datetimes are ordered
    among themselves; any other pairing is a TypeMismatch. *)
Definition ordering (op : OrdOp) (a b : Value) : Result Value :=
  match a, b with
  | VNull, _ | _, VNull => Ok (VBool false)
  | VString s, VString t => Ok (VBool (ord_of_comparison op (String.compare s t)))
  | VDate x, VDate y => Ok (VBool (ord_of_comparison op (x ?= y)%Z))
  | VDateTime x, VDateTime y => Ok (VBool (ord_of_comparison op (x ?= y)%Z))
  | _, _ =>
      match as_number a, as_number b with
      | Some p, Some q => Ok (VBool (ord_of_comparison op (p ?= q)%Q))
      | _, _ => Err TypeMismatch "ordering comparison of incomparable types"
      end
  end.

Definition same_kind (a b : Value) : bool :=
  match a, b with
  | (VInt _ | VDecimal _), (VInt _ | VDecimal _) => true
  | VString _, VString _ | VBool _, VBool _ | VDate _, VDate _
  | VDateTime _, VDateTime _ | VList _, VList _ | VTable _, VTable _ => true
  | _, _ => false
  end.

(** Modelled from the spec: [==] is structural and requires comparable
    types; a cross-type comparison is a TypeMismatch unless one operand is
    NULL (section 4.3). *)
Definition equality (a b : Value) : Result Value :=
  if is_null a || is_null b then Ok (VBool (is_null a && is_null b))
  else if same_kind a b then Ok (VBool (value_eqb a b))
  else Err TypeMismatch "equality of incomparable types".

Definition as_bool (v : Value) : Result bool :=
  match v with
  | VBool b => Ok b
  | _ => Err TypeMismatch "expected BOOL"
  end.

Fixpoint lookup_column (name : string) (row : Row) : option Value :=
  match row with
  | [] => None
  | (c, v) :: row' => if String.eqb c name then Some v else lookup_column name row'
  end.

(** Modelled from the spec: the expression evaluator of section 4.4: an
    expression is evaluated against a Row (column lookup) and the enclosing
    Scope (variable lookup) and produces a Value or an error; AND and OR
    short-circuit, NOT inverts BOOL only. *)
Fixpoint eval (sigma : Scope) (row : Row) (e : Expr) : Result Value :=
  match e with
  | ELit v => Ok v
  | EIdent x =>
      match lookup_column x row with
      | Some v => Ok v
      | None =>
          match sigma !! x with
          | Some v => Ok v
          | None => Err UnknownIdentifier x
          end
      end
  | EArith op a b =>
      x ← eval sigma row a; y ← eval sigma row b; arith op x y
  | EOrd op a b =>
      x ← eval sigma row a; y ← eval sigma row b; ordering op x y
  | EEq a b =>
      x ← eval sigma row a; y ← eval sigma row b; equality x y
  | ENe a b =>
      x ← eval sigma row a; y ← eval sigma row b;
      r ← equality x y; t ← as_bool r; Ok (VBool (negb t))
  | EAnd a b =>
      x ← eval sigma row a; p ← as_bool x;
      if (p : bool) then (y ← eval sigma row b; q ← as_bool y; Ok (VBool q))
      else Ok (VBool false)
  | EOr a b =>
      x ← eval sigma row a; p ← as_bool x;
      if (p : bool) then Ok (VBool true)
      else (y ← eval sigma row b; q ← as_bool y; Ok (VBool q))
  | ENot a =>
      x ← eval sigma row a; p ← as_bool x; Ok (VBool (negb p))
  | EIsNull a => x ← eval sigma row a; Ok (VBool (is_null x))
  | EIsNotNull a => x ← eval sigma row a; Ok (VBool (negb (is_null x)))
  end.

(** *** Step executor: FILTER and AGGREGATE *)

(** Modelled from the spec: FILTER keeps the rows on which the predicate
    evaluates to BOOL true, in input order (section 4.5).  The rows are
    visited in order and an evaluation error of the predicate is the error
    of the step. *)
Fixpoint FILTER (sigma : Scope) (pred : Expr) (t : Table) : Result Table :=
  match t with
  | [] => Ok []
  | r :: t' =>
      v ← eval sigma r pred;
      kept ← FILTER sigma pred t';
      Ok (if is_true v then r :: kept else kept)
  end.

(** Modelled from the spec: the COMPUTE functions of AGGREGATE
    (section 4.5). *)
Inductive AggFn :=
| COUNT
| SUM (col : string)
| AVG (col : string)
| MIN (col : string)
| MAX (col : string).

(** [fn AS alias] *)
Record Compute := mkCompute { fn : AggFn; alias : string }.

(** The non-NULL values of a column over the rows of a group. *)
Fixpoint column_values (c : string) (rows : Table) : Result (list Value) :=
  match rows with
  | [] => Ok []
  | r :: rows' =>
      match lookup_column c r with
      | Some v =>
          vs ← column_values c rows';
          Ok (if is_null v then vs else v :: vs)
      | None => Err SchemaViolation c
      end
  end.

Fixpoint sum_values (acc : Value) (vs : list Value) : Result Value :=
  match vs with
  | [] => Ok acc
  | v :: vs' => s ← arith Add acc v; sum_values s vs'
  end.

Definition agg_sum (vs : list Value) : Result Value :=
  match vs with
  | [] => Ok VNull
  | _ :: _ => sum_values (VInt 0) vs
  end.

(** AVG divides by the number of non-NULL contributing rows. *)
Definition agg_avg (vs : list Value) : Result Value :=
  s ← agg_sum vs;
  match as_number s with
  | Some q => Ok (VDecimal (q / inject_Z (Z.of_nat (length vs))))
  | None => Ok VNull
  end.

Fixpoint extremum (op : OrdOp) (best : Value) (vs : list Value) : Result Value :=
  match vs with
  | [] => Ok best
  | v :: vs' =>
      b ← ordering op v best;
      extremum op (if is_true b then v else best) vs'
  end.

Definition agg_extremum (op : OrdOp) (vs : list Value) : Result Value :=
  match vs with
  | [] => Ok VNull
  | v :: vs' => extremum op v vs'
  end.

(** Modelled from the spec: a COMPUTE expression applied over the rows of a
    group (section 4.5): COUNT() is the number of rows, SUM and AVG over an
    empty group are NULL, AVG divides by the number of non-NULL rows. *)
Definition apply_agg (f : AggFn) (rows : Table) : Result Value :=
  match f with
  | COUNT => Ok (VInt (Z.of_nat (length rows)))
  | SUM c => vs ← column_values c rows; agg_sum vs
  | AVG c => vs ← column_values c rows; agg_avg vs
  | MIN c => vs ← column_values c rows; agg_extremum Lt vs
  | MAX c => vs ← column_values c rows; agg_extremum Gt vs
  end.

Fixpoint compute_all (cs : list Compute) (rows : Table) : Result Row :=
  match cs with
  | [] => Ok []
  | c :: cs' =>
      v ← apply_agg (fn c) rows;
      rest ← compute_all cs' rows;
      Ok ((alias c, v) :: rest)
  end.

(** The GROUP_BY tuple of a row. *)
Fixpoint key_of (cols : list string) (row : Row) : Result (list Value) :=
  match cols with
  | [] => Ok []
  | c :: cols' =>
      match lookup_column c row with
      | Some v => vs ← key_of cols' row; Ok (v :: vs)
      | None => Err SchemaViolation c
      end
  end.

(** Groups are kept in first-seen key order; a row joins the group of its
    key or opens a new last group. *)
Fixpoint add_to_group (k : list Value) (r : Row)
    (gs : list (list Value * Table)) : list (list Value * Table) :=
  match gs with
  | [] => [(k, [r])]
  | (k', rs) :: gs' =>
      if values_eqb k' k then (k', rs ++ [r]) :: gs'
      else (k', rs) :: add_to_group k r gs'
  end.

Fixpoint group_rows (cols : list string) (rows : Table)
    (gs : list (list Value * Table)) : Result (list (list Value * Table)) :=
  match rows with
  | [] => Ok gs
  | r :: rows' => k ← key_of cols r; group_rows cols rows' (add_to_group k r gs)
  end.

Definition group_row (cols : list string) (cs : list Compute)
    (g : list Value * Table) : Result Row :=
  aggs ← compute_all cs g.2;
  Ok (zip cols g.1 ++ aggs).

Fixpoint group_rows_out (cols : list string) (cs : list Compute)
    (gs : list (list Value * Table)) : Result Table :=
  match gs with
  | [] => Ok []
  | g :: gs' =>
      r ← group_row cols cs g;
      rest ← group_rows_out cols cs gs';
      Ok (r :: rest)
  end.

(** Modelled from the spec: AGGREGATE GROUP_BY cols COMPUTE cs (sections 4.5
    and 8): one output row per group, in first-seen group order; an empty
    input table yields a single row computed over no rows, its GROUP_BY
    columns NULL. *)
Definition AGGREGATE (cols : list string) (cs : list Compute) (t : Table)
  : Result Table :=
  match t with
  | [] => r ← group_row cols cs (map (fun _ => VNull) cols, []); Ok [r]
  | _ :: _ => gs ← group_rows cols t []; group_rows_out cols cs gs
  end.

(** *** Control-flow interpreter *)

(** Modelled from the spec: the statements of section 4.6 that the
    properties below need (SET, IF/ELSE, WHILE, TRY/ON_ERROR, BREAK,
    CONTINUE, RETURN, ASSERT) and the data operators FILTER and AGGREGATE
    with their INTO target. *)
Inductive Stmt :=
| SSet (x : string) (e : Expr)
| SIf (c : Expr) (thenB elseB : list Stmt)
| SWhile (c : Expr) (body : list Stmt)
| STry (body handler : list Stmt)
| SBreak
| SContinue
| SReturn (e : Expr)
| SAssert (c : Expr) (msg : string)
| SFilter (src : string) (pred : Expr) (into : string)
| SAggregate (src : string) (cols : list string) (cs : list Compute) (into : string).

(** Modelled from the spec: the control signal returned by statement
    execution (sections 3 and 9). *)
Inductive Signal :=
| Normal
| Break
| Continue
| Return (v : Value)
| Error (k : ErrorKind) (msg : string).

Section Blocks.
Variable step : Stmt -> Scope -> Scope * Signal.

(** Modelled from the spec: statements run top to bottom; any signal other
    than Normal ends the block and is handed to the enclosing construct
    (sections 4.6 and 9). *)
Fixpoint run_block (b : list Stmt) (sigma : Scope) : Scope * Signal :=
  match b with
  | [] => (sigma, Normal)
  | s :: b' =>
      match step s sigma with
      | (sigma', Normal) => run_block b' sigma'
      | out => out
      end
  end.
End Blocks.

Section Loop.
Variable cond : Scope -> Result Value.
Variable body : Scope -> Scope * Signal.

(** Modelled from the spec: WHILE re-evaluates its condition before each
    iteration and runs under a maximum iteration count; [remaining] is the
    number of iterations still allowed, and starting one more is the Fatal
    loop-limit error (section 4.6). *)
Fixpoint while_loop (remaining : nat) (sigma : Scope) : Scope * Signal :=
  match cond sigma with
  | Err k m => (sigma, Error k m)
  | Ok (VBool false) => (sigma, Normal)
  | Ok (VBool true) =>
      match remaining with
      | O => (sigma, Error LoopLimitExceeded "loop limit exceeded")
      | S n =>
          match body sigma with
          | (sigma', (Normal | Continue)) => while_loop n sigma'
          | (sigma', Break) => (sigma', Normal)
          | out => out
          end
      end
  | Ok _ => (sigma, Error TypeMismatch "WHILE condition must be BOOL")
  end.
End Loop.

Definition bind_table (sigma : Scope) (into : string) (r : Result Table)
  : Scope * Signal :=
  match r with
  | Ok t => (<[into := VTable t]> sigma, Normal)
  | Err k m => (sigma, Error k m)
  end.

Definition with_table (sigma : Scope) (src : string)
    (op : Table -> Scope * Signal) : Scope * Signal :=
  match sigma !! src with
  | Some (VTable t) => op t
  | Some _ => (sigma, Error TypeMismatch src)
  | None => (sigma, Error UnknownIdentifier src)
  end.

Section Interpreter.
(** The configured iteration cap of a run. *)
Variable max_iterations : nat.

(** Modelled from the spec: statement execution (section 4.6).  TRY runs its
    block; a catchable Error signal is cleared and the ON_ERROR block runs
    instead, a Fatal one passes through. *)
Fixpoint exec (s : Stmt) (sigma : Scope) {struct s} : Scope * Signal :=
  match s with
  | SSet x e =>
      match eval sigma [] e with
      | Ok v => (<[x := v]> sigma, Normal)
      | Err k m => (sigma, Error k m)
      end
  | SIf c thenB elseB =>
      match eval sigma [] c with
      | Ok (VBool true) => run_block exec thenB sigma
      | Ok (VBool false) => run_block exec elseB sigma
      | Ok _ => (sigma, Error TypeMismatch "IF condition must be BOOL")
      | Err k m => (sigma, Error k m)
      end
  | SWhile c body =>
      while_loop (fun s' => eval s' [] c) (run_block exec body)
                 max_iterations sigma
  | STry body handler =>
      match run_block exec body sigma with
      | (sigma', Error k m) =>
          if catchable k then run_block exec handler sigma'
          else (sigma', Error k m)
      | out => out
      end
  | SBreak => (sigma, Break)
  | SContinue => (sigma, Continue)
  | SReturn e =>
      match eval sigma [] e with
      | Ok v => (sigma, Return v)
      | Err k m => (sigma, Error k m)
      end
  | SAssert c msg =>
      match eval sigma [] c with
      | Ok (VBool true) => (sigma, Normal)
      | Ok _ => (sigma, Error AssertionFailed msg)
      | Err k m => (sigma, Error k m)
      end
  | SFilter src pred into =>
      with_table sigma src (fun t => bind_table sigma into (FILTER sigma pred t))
  | SAggregate src cols cs into =>
      with_table sigma src (fun t => bind_table sigma into (AGGREGATE cols cs t))
  end.

Definition exec_block : list Stmt -> Scope -> Scope * Signal := run_block exec.

(** [STEP name: statements] *)
Record Step := mkStep { step_name : string; step_body : list Stmt }.

Record Pipeline := mkPipeline {
  pipeline_name : string;
  steps : list Step;
  output : string
}.

Fixpoint run_steps (ss : list Step) (sigma : Scope) : Scope * Signal :=
  match ss with
  | [] => (sigma, Normal)
  | st :: ss' =>
      match exec_block (step_body st) sigma with
      | (sigma', Normal) => run_steps ss' sigma'
      | out => out
      end
  end.

(** Modelled from the spec: the terminal states of a run (section 4.6): the
    OUTPUT value, the value of a RETURN, or the uncaught error.  [inputs]
    binds the INPUT tables. *)
Definition run (p : Pipeline) (inputs : Scope) : Result Value :=
  match run_steps (steps p) inputs with
  | (_, Return v) => Ok v
  | (_, Error k m) => Err k m
  | (sigma, _) =>
      match sigma !! output p with
      | Some v => Ok v
      | None => Err UnknownIdentifier (output p)
      end
  end.

End Interpreter.

End Core.

(** ** Test doubles for the Node runtime *)

Module Samples.
Import Vscode Extension.

(** POSIX [path.isAbsolute]: the path starts with a slash. *)
Definition posix_isAbsolute (p : string) : bool :=
  match p with
  | String c _ => bool_decide (c = "/"%char)
  | EmptyString => false
  end.

Fixpoint drop_slashes (rev : list ascii) : list ascii :=
  match rev with
  | c :: rev' => if bool_decide (c = "/"%char) then drop_slashes rev' else rev
  | [] => []
  end.

Fixpoint drop_segment (rev : list ascii) : option (list ascii) :=
  match rev with
  | c :: rev' => if bool_decide (c = "/"%char) then Some rev' else drop_segment rev'
  | [] => None
  end.

(** POSIX [path.dirname]: trailing slashes are skipped, then the last
    segment and the slash before it are cut off. *)
Definition posix_dirname (p : string) : string :=
  match list_ascii_of_string p with
  | [] => "."
  | c :: rest =>
      let root := bool_decide (c = "/"%char) in
      match drop_segment (drop_slashes (reverse rest)) with
      | Some r =>
          if root && bool_decide (r = []) then "//"
          else string_of_list_ascii (c :: reverse r)
      | None => if root then "/" else "."
      end
  end.

(** [path.join] of a directory and a relative path whose segments need no
    normalisation. *)
Definition plain_join (dir rel : string) : string := dir +:+ "/" +:+ rel.

(** A runtime whose subprocess always reports [r], whose JSON parser
    recognises exactly the text [stdout r] as the value [parsed], and whose
    pretty-printer prints [shown]. *)
Definition stub (r : ExecResult) (parsed : option CheckResult) (shown : string)
  : Runtime :=
  {| json := CheckResult;
     JSON_parse := fun s => if bool_decide (s = stdout r) then parsed else None;
     JSON_stringify := fun _ => shown;
     check_result := fun v => Some v;
     path_dirname := posix_dirname;
     path_isAbsolute := posix_isAbsolute;
     path_join := plain_join;
     cp_exec := fun _ _ => r |}.

(** A runtime whose subprocess always reports [r] and whose JSON parser
    reads the text [stdout r] as the value [null]. *)
Definition stub_null (r : ExecResult) : Runtime :=
  {| json := unit;
     JSON_parse := fun s => if bool_decide (s = stdout r) then Some tt else None;
     JSON_stringify := fun _ => "null";
     check_result := fun _ => None;
     path_dirname := posix_dirname;
     path_isAbsolute := posix_isAbsolute;
     path_join := plain_join;
     cp_exec := fun _ _ => r |}.

Definition default_settings : Settings := mkSettings None None (Some "/work").

(** The pipeline file, open without unsaved changes. *)
Definition pipeline_doc : TextDocument :=
  mkTextDocument "/work/etl/sales.anka" "anka" false.

(** The same file with unsaved changes. *)
Definition edited_doc : TextDocument :=
  mkTextDocument "/work/etl/sales.anka" "anka" true.

(** The checker found nothing: [{"status": "ok"}], exit status 0. *)
Definition clean_output : ExecResult :=
  mkExecResult None ("{" +:+ quoted "status" +:+ ": " +:+ quoted "ok" +:+ "}") EmptyString.

Definition clean_result : CheckResult := mkCheckResult (Some "ok") None.

(** The checker reports one warning and one error. *)
Definition two_entries : list DiagnosticEntry :=
  [ mkEntry warning (Some 3) (Some 5) "unused step";
    mkEntry error (Some 7) (Some 1) "missing INTO" ].

Definition findings_result : CheckResult := mkCheckResult (Some "error") (Some two_entries).

(** [name: value] inside a JSON object. *)
Definition field (name value : string) : string := quoted name +:+ ": " +:+ value.

Definition entry_text (sev l c msg : string) : string :=
  "{" +:+ field "severity" (quoted sev) +:+ ", " +:+ field "line" l +:+ ", "
      +:+ field "column" c +:+ ", " +:+ field "message" (quoted msg) +:+ "}".

Definition findings_output : ExecResult :=
  mkExecResult None
    ("{" +:+ field "status" (quoted "error") +:+ ", "
         +:+ field "errors"
               ("[" +:+ entry_text "warning" "3" "5" "unused step" +:+ ", "
                    +:+ entry_text "error" "7" "1" "missing INTO" +:+ "]")
         +:+ "}")
    EmptyString.

(** The checker prints text that is not JSON, nothing on stderr, and exits
    with status 0. *)
Definition garbled_output : ExecResult :=
  mkExecResult None "Traceback (most recent call last):" EmptyString.

(** The checker could not be started. *)
Definition failed_output : ExecResult :=
  mkExecResult (Some (mkExecException (CodeNumber 127))) EmptyString
               "python: command not found".

(** A run that printed a one-row table. *)
Definition run_output : ExecResult :=
  mkExecResult None ("[{" +:+ quoted "id" +:+ ": 1}]") EmptyString.

(** That table has neither [status] nor [errors]. *)
Definition run_value : CheckResult := mkCheckResult None None.

(** [JSON.stringify] of that table with an indent of 2. *)
Definition run_pretty : string :=
  "[" +:+ newline +:+ "  {" +:+ newline +:+ "    " +:+ quoted "id" +:+ ": 1"
      +:+ newline +:+ "  }" +:+ newline +:+ "]".

(** A run that failed with a plain message on stdout, the interpreter's
    message on stderr and exit status 1. *)
Definition failed_run : ExecResult :=
  mkExecResult (Some (mkExecException (CodeNumber 1)))
               "error: step filter_active failed"
               "DivisionByZero at line 4".

(** What the parse subcommand printed: a summary that is not JSON. *)
Definition parse_output : ExecResult :=
  mkExecResult None "PIPELINE sales: 2 steps" EmptyString.

(** The checker printed the JSON value [null] and a message on stderr. *)
Definition null_output : ExecResult :=
  mkExecResult None "null" "boom".

(** Entries of which the second has no message. *)
Definition broken_entries : list DiagnosticEntry :=
  [ mkEntry error (Some 2) (Some 1) "unknown operator";
    mkEntry error (Some 4) (Some 1) EmptyString;
    mkEntry error (Some 9) (Some 1) "missing INTO" ].

Definition broken_result : CheckResult := mkCheckResult (Some "error") (Some broken_entries).

Definition broken_output : ExecResult :=
  mkExecResult None
    ("{" +:+ field "status" (quoted "error") +:+ ", "
         +:+ field "errors"
               ("[" +:+ entry_text "error" "2" "1" "unknown operator" +:+ ", "
                    +:+ entry_text "error" "4" "1" EmptyString +:+ ", "
                    +:+ entry_text "error" "9" "1" "missing INTO" +:+ "]")
         +:+ "}")
    "checker crashed".

(** [JSON.stringify] of the clean report with an indent of 2. *)
Definition clean_pretty : string :=
  "{" +:+ newline +:+ "  " +:+ dquote +:+ "status" +:+ dquote +:+ ": " +:+ dquote +:+
  "ok" +:+ dquote +:+ newline +:+ "}".

(** [JSON.stringify] of the report with two entries with an indent of 2. *)
Definition findings_pretty : string :=
  "{" +:+ newline +:+ "  " +:+ dquote +:+ "status" +:+ dquote +:+ ": " +:+ dquote +:+
  "error" +:+ dquote +:+ "," +:+ newline +:+ "  " +:+ dquote +:+ "errors" +:+
  dquote +:+ ": [" +:+ newline +:+ "    {" +:+ newline +:+ "      " +:+ dquote +:+
  "severity" +:+ dquote +:+ ": " +:+ dquote +:+ "warning" +:+ dquote +:+ "," +:+
  newline +:+ "      " +:+ dquote +:+ "line" +:+ dquote +:+ ": 3," +:+ newline +:+
  "      " +:+ dquote +:+ "column" +:+ dquote +:+ ": 5," +:+ newline +:+ "      " +:+
  dquote +:+ "message" +:+ dquote +:+ ": " +:+ dquote +:+ "unused step" +:+
  dquote +:+ newline +:+ "    }," +:+ newline +:+ "    {" +:+ newline +:+
  "      " +:+ dquote +:+ "severity" +:+ dquote +:+ ": " +:+ dquote +:+ "error" +:+
  dquote +:+ "," +:+ newline +:+ "      " +:+ dquote +:+ "line" +:+ dquote +:+
  ": 7," +:+ newline +:+ "      " +:+ dquote +:+ "column" +:+ dquote +:+ ": 1," +:+
  newline +:+ "      " +:+ dquote +:+ "message" +:+ dquote +:+ ": " +:+ dquote +:+
  "missing INTO" +:+ dquote +:+ newline +:+ "    }" +:+ newline +:+ "  ]" +:+
  newline +:+ "}".

(** [JSON.stringify] of the report with a broken entry with an indent of 2. *)
Definition broken_pretty : string :=
  "{" +:+ newline +:+ "  " +:+ dquote +:+ "status" +:+ dquote +:+ ": " +:+ dquote +:+
  "error" +:+ dquote +:+ "," +:+ newline +:+ "  " +:+ dquote +:+ "errors" +:+
  dquote +:+ ": [" +:+ newline +:+ "    {" +:+ newline +:+ "      " +:+ dquote +:+
  "severity" +:+ dquote +:+ ": " +:+ dquote +:+ "error" +:+ dquote +:+ "," +:+
  newline +:+ "      " +:+ dquote +:+ "line" +:+ dquote +:+ ": 2," +:+ newline +:+
  "      " +:+ dquote +:+ "column" +:+ dquote +:+ ": 1," +:+ newline +:+ "      " +:+
  dquote +:+ "message" +:+ dquote +:+ ": " +:+ dquote +:+ "unknown operator" +:+
  dquote +:+ newline +:+ "    }," +:+ newline +:+ "    {" +:+ newline +:+
  "      " +:+ dquote +:+ "severity" +:+ dquote +:+ ": " +:+ dquote +:+ "error" +:+
  dquote +:+ "," +:+ newline +:+ "      " +:+ dquote +:+ "line" +:+ dquote +:+
  ": 4," +:+ newline +:+ "      " +:+ dquote +:+ "column" +:+ dquote +:+ ": 1," +:+
  newline +:+ "      " +:+ dquote +:+ "message" +:+ dquote +:+ ": " +:+ dquote +:+
  dquote +:+ newline +:+ "    }," +:+ newline +:+ "    {" +:+ newline +:+
  "      " +:+ dquote +:+ "severity" +:+ dquote +:+ ": " +:+ dquote +:+ "error" +:+
  dquote +:+ "," +:+ newline +:+ "      " +:+ dquote +:+ "line" +:+ dquote +:+
  ": 9," +:+ newline +:+ "      " +:+ dquote +:+ "column" +:+ dquote +:+ ": 1," +:+
  newline +:+ "      " +:+ dquote +:+ "message" +:+ dquote +:+ ": " +:+ dquote +:+
  "missing INTO" +:+ dquote +:+ newline +:+ "    }" +:+ newline +:+ "  ]" +:+
  newline +:+ "}".

(** An entry far beyond the safe integers. *)
Definition distant_entry : DiagnosticEntry :=
  mkEntry error (Some (10 ^ 17)) (Some (10 ^ 17 + 1)) "far away".

Definition some_editor : Editor :=
  mkEditor (<["/work/etl/sales.anka" := [fallbackDiagnostic "stale"]]> ∅) [] ["old"] [].

End Samples.

(** ** How the properties read on the extension *)

Module Reading.
Import Vscode Extension.

(** A 1-based position made 0-based and clamped below at 0; a missing
    position counts as 1. *)
Definition zero_based (n : option Z) : Z := Z.max 0 (default 1 n - 1).

(** A position a double holds exactly: at most 2^53, or missing. *)
Definition exact (n : option Z) : Prop :=
  match n with
  | Some z => z <= 2 ^ 53
  | None => True
  end.

(** Below zero: a negative integer or minus infinity. *)
Definition negative (n : Number) : Prop :=
  match n with
  | Finite w => w < 0
  | NegInfinity => True
  | PosInfinity => False
  end.

Definition severity_of (s : Severity) : DiagnosticSeverity :=
  match s with
  | error => SevError
  | warning => SevWarning
  end.

(** The diagnostic shows the entry with the entry's own severity. *)
Definition renders_with_severity (e : DiagnosticEntry) (d : Diagnostic) : Prop :=
  message d = entry_message e
  /\ severity d = severity_of (entry_severity e)
  /\ startLine (range d) = Finite (zero_based (line e))
  /\ startCharacter (range d) = Finite (zero_based (column e)).

(** The diagnostic shows the entry as an error, at the entry's position
    made 0-based wherever a double holds that position exactly. *)
Definition renders_as_error (e : DiagnosticEntry) (d : Diagnostic) : Prop :=
  message d = entry_message e
  /\ severity d = SevError
  /\ (exact (line e) -> startLine (range d) = Finite (zero_based (line e)))
  /\ (exact (column e) -> startCharacter (range d) = Finite (zero_based (column e))).

(** The entries up to the first one without a message. *)
Fixpoint readable (es : list DiagnosticEntry) : list DiagnosticEntry :=
  match es with
  | [] => []
  | e :: es' => if truthy (entry_message e) then e :: readable es' else []
  end.

(** The checker printed JSON whose [status] is ['ok']. *)
Definition reports_ok `{RT : Runtime} (r : ExecResult) : bool :=
  truthy (stdout r) &&
  match JSON_parse (stdout r) with
  | Some v =>
      match check_result v with
      | Some result => bool_decide (status result = Some "ok")
      | None => false
      end
  | None => false
  end.

(** The checker printed something the [try] block gives up on before it
    has pushed a diagnostic: text that is not JSON, the value [null], or a
    list of entries whose first one has no message. *)
Definition unreadable `{RT : Runtime} (r : ExecResult) : Prop :=
  JSON_parse (stdout r) = None
  \/ (exists v, JSON_parse (stdout r) = Some v /\ check_result v = None)
  \/ (exists v result e es,
        JSON_parse (stdout r) = Some v /\ check_result v = Some result
        /\ status result <> Some "ok"
        /\ errors result = Some (e :: es) /\ entry_message e = EmptyString).

(** The checker printed an object that lists no entry and whose status is
    not ['ok']. *)
Definition lists_nothing `{RT : Runtime} (r : ExecResult) : Prop :=
  exists v result,
    JSON_parse (stdout r) = Some v /\ check_result v = Some result
    /\ status result <> Some "ok"
    /\ (errors result = None \/ errors result = Some []).

(** The run subcommand is spawned on the pipeline file. *)
Definition executes_pipeline `{RT : Runtime} (settings : Settings)
    (filePath : string) (inputFile : option string) : Prop :=
  exists input,
    Exec (run_command_line (getPythonPath settings) filePath input)
         (rootPath settings)
    ∈ runAnkaFile settings filePath inputFile.

(** Nothing is shown or changed besides the diagnostics of a document. *)
Definition only_sets_diagnostics (es : list Effect) : Prop :=
  Forall (fun e => match e with
                   | Exec _ _ | DiagnosticsSet _ _ => True
                   | _ => False
                   end) es.

(** A failed or unreadable check never passes for a clean one. *)
Definition always_reports `{RT : Runtime} (r : ExecResult) : Prop :=
  JSON_parse (stdout r) = None \/ exec_error r <> None ->
  checkDiagnostics r <> [].

Definition is_diagnostics_set (e : Effect) : Prop :=
  match e with
  | DiagnosticsSet _ _ => True
  | _ => False
  end.

End Reading.
(** ** How the properties read on the core *)

Module CoreReading.
Import Core.

(** The predicate evaluates to BOOL true on the row. *)
Definition keeps (sigma : Scope) (pred : Expr) (r : Row) : bool :=
  match eval sigma r pred with
  | Ok v => is_true v
  | Err _ _ => false
  end.

(** What an aggregate function yields over no rows. *)
Definition empty_group_value (f : AggFn) : Value :=
  match f with
  | COUNT => VInt 0
  | _ => VNull
  end.

(** [iterates cond body k sigma sigma']: from [sigma], the condition holds
    and the body completes (normally or by CONTINUE) [k] times in a row,
    ending in [sigma']. *)
Inductive iterates (cond : Scope -> Result Value) (body : Scope -> Scope * Signal)
  : nat -> Scope -> Scope -> Prop :=
| iterates_O sigma : iterates cond body O sigma sigma
| iterates_S k sigma sigma1 sigma2 sig :
    cond sigma = Ok (VBool true) ->
    body sigma = (sigma1, sig) ->
    sig = Normal \/ sig = Continue ->
    iterates cond body k sigma1 sigma2 ->
    iterates cond body (S k) sigma sigma2.

(** Where a statement can sit inside a compound statement: in a branch of
    an IF, in the body of a WHILE, in the block of a TRY or in its ON_ERROR
    block. *)
Inductive Frame :=
| InThen (c : Expr) (elseB : list Stmt)
| InElse (c : Expr) (thenB : list Stmt)
| InWhile (c : Expr)
| InTry (handler : list Stmt)
| InHandler (body : list Stmt).

(** The compound statement of a frame around a block. *)
Definition fill (f : Frame) (b : list Stmt) : Stmt :=
  match f with
  | InThen c elseB => SIf c b elseB
  | InElse c thenB => SIf c thenB b
  | InWhile c => SWhile c b
  | InTry handler => STry b handler
  | InHandler body => STry body b
  end.

(** One level of nesting: the frame, and the statements that precede and
    follow in its block. *)
Record Layer := mkLayer { frame : Frame; before : list Stmt; after : list Stmt }.

(** The statement [s] under the layers of [path], the first layer
    outermost. *)
Fixpoint plug (path : list Layer) (s : Stmt) : Stmt :=
  match path with
  | [] => s
  | l :: path' => fill (frame l) (before l ++ plug path' s :: after l)
  end.

(** [opens cap f b sigma sigma0]: run from [sigma], the statement [fill f b]
    comes to execute its block [b], starting it in [sigma0]. *)
Definition opens (cap : nat) (f : Frame) (b : list Stmt) (sigma sigma0 : Scope) : Prop :=
  match f with
  | InThen c _ => eval sigma [] c = Ok (VBool true) /\ sigma0 = sigma
  | InElse c _ => eval sigma [] c = Ok (VBool false) /\ sigma0 = sigma
  | InWhile c =>
      exists j, (j < cap)%nat
                /\ iterates (fun s' => eval s' [] c) (exec_block cap b) j sigma sigma0
                /\ eval sigma0 [] c = Ok (VBool true)
  | InTry _ => sigma0 = sigma
  | InHandler body =>
      exists k m, exec_block cap body sigma = (sigma0, Error k m) /\ category k <> Fatal
  end.

(** [reaches cap path s sigma sigmah]: run from [sigma], the statement
    [plug path s] comes to execute [s], starting it in [sigmah]: every
    layer opens its block and the statements before the next layer
    complete normally. *)
Fixpoint reaches (cap : nat) (path : list Layer) (s : Stmt) (sigma sigmah : Scope) : Prop :=
  match path with
  | [] => sigmah = sigma
  | l :: path' =>
      exists sigma0 sigma1,
        opens cap (frame l) (before l ++ plug path' s :: after l) sigma sigma0
        /\ exec_block cap (before l) sigma0 = (sigma1, Normal)
        /\ reaches cap path' s sigma1 sigmah
  end.

(** *** Sample tables and programs *)

Definition orders : Table :=
  [ [("id", VInt 1); ("status", VString "active"); ("amount", VInt 150)];
    [("id", VInt 2); ("status", VString "closed"); ("amount", VInt 300)];
    [("id", VInt 3); ("status", VString "active"); ("amount", VNull)] ].

Definition is_active : Expr := EEq (EIdent "status") (ELit (VString "active")).

Definition large_amount : Expr := EOrd Gt (EIdent "amount") (ELit (VInt 200)).

(** [SET ratio = 1 / 0] *)
Definition risky : list Stmt :=
  [SSet "ratio" (EArith Div (ELit (VInt 1)) (ELit (VInt 0)))].

(** [SET failed = TRUE] *)
Definition recover : list Stmt := [SSet "failed" (ELit (VBool true))].

(** [SET done = TRUE] *)
Definition carry_on : list Stmt := [SSet "done" (ELit (VBool true))].

(** [WHILE TRUE: END] *)
Definition spin : Stmt := SWhile (ELit (VBool true)) [].

Definition guarded_pipeline : Pipeline :=
  mkPipeline "guarded" [mkStep "divide" [STry risky recover]; mkStep "finish" carry_on]
             "failed".

Definition runaway_pipeline : Pipeline :=
  mkPipeline "runaway" [mkStep "spin" [STry [spin] recover]] "failed".

(** The loop inside an IF inside the block of a TRY, with statements
    before and after it at both levels. *)
Definition nesting : list Layer :=
  [ mkLayer (InTry recover) carry_on carry_on;
    mkLayer (InThen (ELit (VBool true)) []) recover carry_on ].

Definition nested_pipeline : Pipeline :=
  mkPipeline "nested"
    [ mkStep "prepare" carry_on;
      mkStep "spin" (recover ++ plug nesting spin :: carry_on);
      mkStep "finish" carry_on ]
    "done".

End CoreReading.
(** ** Hover and completion providers *)

Module Providers.
Import Vscode Extension.

(** The documentation tables, in source order. *)
Definition KEYWORD_DOCS : list (string * string) :=
  [ ("PIPELINE",
       "Defines a new data transformation pipeline." +:+ newline +:+ newline +:+ "Syntax: `PIPELINE name:`");
    ("INPUT",
       "Declares an input table with its schema." +:+ newline +:+ newline +:+ "Syntax: `INPUT name: TABLE[field: TYPE, ...]`");
    ("OUTPUT",
       "Specifies the output of the pipeline." +:+ newline +:+ newline +:+ "Syntax: `OUTPUT table_name`");
    ("STEP",
       "Defines a named step in the pipeline." +:+ newline +:+ newline +:+ "Syntax: `STEP name: operation`");
    ("FILTER",
       "Filters rows based on a condition." +:+ newline +:+ newline +:+ "Syntax: `FILTER source WHERE condition INTO target`");
    ("SELECT",
       "Selects specific columns from a table." +:+ newline +:+ newline +:+ "Syntax: `SELECT col1, col2 FROM source INTO target`");
    ("MAP",
       "Adds computed columns to a table." +:+ newline +:+ newline +:+ "Syntax: `MAP source WITH new_col => expression INTO target`");
    ("SORT",
       "Sorts rows by a column." +:+ newline +:+ newline +:+ "Syntax: `SORT source BY column ASC|DESC INTO target`");
    ("LIMIT",
       "Takes the first N rows." +:+ newline +:+ newline +:+ "Syntax: `LIMIT source COUNT n INTO target`");
    ("SKIP",
       "Skips the first N rows." +:+ newline +:+ newline +:+ "Syntax: `SKIP source COUNT n INTO target`");
    ("DISTINCT",
       "Removes duplicate rows." +:+ newline +:+ newline +:+ "Syntax: `DISTINCT source BY columns INTO target`");
    ("AGGREGATE",
       "Groups and aggregates data." +:+ newline +:+ newline +:+ "Syntax: `AGGREGATE source GROUP_BY cols COMPUTE agg_funcs INTO target`");
    ("IF",
       "Conditional execution." +:+ newline +:+ newline +:+ "Syntax: `IF condition: ... ELSE: ... END`");
    ("ELSE", "Alternative branch in IF statement.");
    ("END", "Ends a control flow block (IF, FOR_EACH, WHILE, TRY, MATCH).");
    ("FOR_EACH",
       "Iterates over a collection." +:+ newline +:+ newline +:+ "Syntax: `FOR_EACH item IN collection: ... END`");
    ("WHILE",
       "Loop while condition is true." +:+ newline +:+ newline +:+ "Syntax: `WHILE condition: ... END`");
    ("TRY",
       "Error handling block." +:+ newline +:+ newline +:+ "Syntax: `TRY: ... ON_ERROR: ... END`");
    ("ON_ERROR", "Error handler in TRY block.");
    ("MATCH",
       "Pattern matching." +:+ newline +:+ newline +:+ "Syntax: `MATCH var: CASE val: ... DEFAULT: ... END`");
    ("CASE", "A case in MATCH statement.");
    ("DEFAULT", "Default case in MATCH statement.");
    ("SET",
       "Assigns a value to a variable." +:+ newline +:+ newline +:+ "Syntax: `SET variable = expression`");
    ("APPEND",
       "Adds an item to a collection." +:+ newline +:+ newline +:+ "Syntax: `APPEND item TO collection`");
    ("ASSERT",
       "Validates a condition." +:+ newline +:+ newline +:+ "Syntax: `ASSERT condition MESSAGE " +:+ dquote +:+ "error text" +:+ dquote +:+ "`");
    ("RETURN", "Returns early from pipeline.");
    ("BREAK", "Exits a loop early.");
    ("CONTINUE", "Skips to next loop iteration.");
    ("READ",
       "Reads data from a file." +:+ newline +:+ newline +:+ "Syntax: `READ " +:+ dquote +:+ "path" +:+ dquote +:+ " FORMAT JSON|CSV INTO target`");
    ("WRITE",
       "Writes data to a file." +:+ newline +:+ newline +:+ "Syntax: `WRITE source TO " +:+ dquote +:+ "path" +:+ dquote +:+ " FORMAT JSON|CSV`");
    ("FETCH",
       "Makes an HTTP request." +:+ newline +:+ newline +:+ "Syntax: `FETCH " +:+ dquote +:+ "url" +:+ dquote +:+ " METHOD GET|POST|PUT|DELETE INTO target`");
    ("POST",
       "Makes an HTTP POST request." +:+ newline +:+ newline +:+ "Syntax: `POST " +:+ dquote +:+ "url" +:+ dquote +:+ " BODY data INTO target`");
    ("WHERE", "Specifies a filter condition.");
    ("INTO", "Specifies the output variable.");
    ("FROM", "Specifies the source table.");
    ("BY", "Specifies grouping or sorting column.");
    ("WITH", "Specifies computed column in MAP.");
    ("AS", "Specifies alias name.");
    ("TO", "Specifies destination.");
    ("IN", "Checks membership or specifies iteration source.");
    ("COUNT", "Specifies number of rows or count aggregate.");
    ("GROUP_BY", "Specifies grouping columns.");
    ("COMPUTE", "Specifies aggregate computations.");
    ("ASC", "Ascending sort order.");
    ("DESC", "Descending sort order.");
    ("NULLS_FIRST", "Sort nulls before other values.");
    ("NULLS_LAST", "Sort nulls after other values.");
    ("AND", "Logical AND operator.");
    ("OR", "Logical OR operator.");
    ("NOT", "Logical NOT operator.");
    ("BETWEEN",
       "Range check." +:+ newline +:+ newline +:+ "Syntax: `column BETWEEN low AND high`");
    ("TABLE",
       "Table type." +:+ newline +:+ newline +:+ "Syntax: `TABLE[field: TYPE, ...]`");
    ("INT", "Integer type.");
    ("STRING", "String type.");
    ("DECIMAL", "Decimal number type.");
    ("BOOL", "Boolean type.");
    ("DATE", "Date type.");
    ("DATETIME", "Date and time type.");
    ("JSON", "JSON file format.");
    ("CSV", "CSV file format.");
    ("METHOD", "HTTP method specification.");
    ("HEADERS",
       "HTTP headers." +:+ newline +:+ newline +:+ "Syntax: `HEADERS {" +:+ dquote +:+ "key" +:+ dquote +:+ ": " +:+ dquote +:+ "value" +:+ dquote +:+ "}`");
    ("BODY", "HTTP request body.");
    ("GET", "HTTP GET method.");
    ("PUT", "HTTP PUT method.");
    ("DELETE", "HTTP DELETE method.") ].

Definition FUNCTION_DOCS : list (string * string) :=
  [ ("UPPER",
       "Converts string to uppercase." +:+ newline +:+ newline +:+ "Syntax: `UPPER(string)`");
    ("LOWER",
       "Converts string to lowercase." +:+ newline +:+ newline +:+ "Syntax: `LOWER(string)`");
    ("TRIM",
       "Removes whitespace from both ends." +:+ newline +:+ newline +:+ "Syntax: `TRIM(string)`");
    ("LTRIM",
       "Removes whitespace from left." +:+ newline +:+ newline +:+ "Syntax: `LTRIM(string)`");
    ("RTRIM",
       "Removes whitespace from right." +:+ newline +:+ newline +:+ "Syntax: `RTRIM(string)`");
    ("LENGTH",
       "Returns string length." +:+ newline +:+ newline +:+ "Syntax: `LENGTH(string)`");
    ("REVERSE",
       "Reverses a string." +:+ newline +:+ newline +:+ "Syntax: `REVERSE(string)`");
    ("SUBSTRING",
       "Extracts a substring." +:+ newline +:+ newline +:+ "Syntax: `SUBSTRING(string, start, length)`");
    ("LEFT",
       "Returns leftmost characters." +:+ newline +:+ newline +:+ "Syntax: `LEFT(string, count)`");
    ("RIGHT",
       "Returns rightmost characters." +:+ newline +:+ newline +:+ "Syntax: `RIGHT(string, count)`");
    ("INDEX_OF",
       "Finds position of substring." +:+ newline +:+ newline +:+ "Syntax: `INDEX_OF(string, search)`");
    ("REPLACE",
       "Replaces first occurrence." +:+ newline +:+ newline +:+ "Syntax: `REPLACE(string, old, new)`");
    ("REPLACE_ALL",
       "Replaces all occurrences." +:+ newline +:+ newline +:+ "Syntax: `REPLACE_ALL(string, old, new)`");
    ("PAD_LEFT",
       "Pads string on left." +:+ newline +:+ newline +:+ "Syntax: `PAD_LEFT(string, length, char)`");
    ("PAD_RIGHT",
       "Pads string on right." +:+ newline +:+ newline +:+ "Syntax: `PAD_RIGHT(string, length, char)`");
    ("REPEAT",
       "Repeats a string." +:+ newline +:+ newline +:+ "Syntax: `REPEAT(string, count)`");
    ("CONCAT",
       "Concatenates strings." +:+ newline +:+ newline +:+ "Syntax: `CONCAT(str1, str2, ...)`");
    ("CONTAINS",
       "Checks if string contains substring." +:+ newline +:+ newline +:+ "Syntax: `CONTAINS(column, " +:+ dquote +:+ "text" +:+ dquote +:+ ")`");
    ("STARTS_WITH",
       "Checks if string starts with prefix." +:+ newline +:+ newline +:+ "Syntax: `STARTS_WITH(column, " +:+ dquote +:+ "prefix" +:+ dquote +:+ ")`");
    ("ENDS_WITH",
       "Checks if string ends with suffix." +:+ newline +:+ newline +:+ "Syntax: `ENDS_WITH(column, " +:+ dquote +:+ "suffix" +:+ dquote +:+ ")`");
    ("MATCHES",
       "Checks if string matches regex." +:+ newline +:+ newline +:+ "Syntax: `MATCHES(column, " +:+ dquote +:+ "pattern" +:+ dquote +:+ ")`");
    ("NOW", "Returns current datetime." +:+ newline +:+ newline +:+ "Syntax: `NOW()`");
    ("TODAY", "Returns current date." +:+ newline +:+ newline +:+ "Syntax: `TODAY()`");
    ("YEAR",
       "Extracts year from date." +:+ newline +:+ newline +:+ "Syntax: `YEAR(date)`");
    ("MONTH",
       "Extracts month from date." +:+ newline +:+ newline +:+ "Syntax: `MONTH(date)`");
    ("DAY", "Extracts day from date." +:+ newline +:+ newline +:+ "Syntax: `DAY(date)`");
    ("HOUR",
       "Extracts hour from datetime." +:+ newline +:+ newline +:+ "Syntax: `HOUR(datetime)`");
    ("MINUTE",
       "Extracts minute from datetime." +:+ newline +:+ newline +:+ "Syntax: `MINUTE(datetime)`");
    ("SECOND",
       "Extracts second from datetime." +:+ newline +:+ newline +:+ "Syntax: `SECOND(datetime)`");
    ("DAY_OF_WEEK",
       "Returns day of week (0-6)." +:+ newline +:+ newline +:+ "Syntax: `DAY_OF_WEEK(date)`");
    ("WEEK_OF_YEAR",
       "Returns week number." +:+ newline +:+ newline +:+ "Syntax: `WEEK_OF_YEAR(date)`");
    ("ADD_DAYS",
       "Adds days to date." +:+ newline +:+ newline +:+ "Syntax: `ADD_DAYS(date, count)`");
    ("ADD_MONTHS",
       "Adds months to date." +:+ newline +:+ newline +:+ "Syntax: `ADD_MONTHS(date, count)`");
    ("ADD_YEARS",
       "Adds years to date." +:+ newline +:+ newline +:+ "Syntax: `ADD_YEARS(date, count)`");
    ("ADD_HOURS",
       "Adds hours to datetime." +:+ newline +:+ newline +:+ "Syntax: `ADD_HOURS(datetime, count)`");
    ("DIFF_DAYS",
       "Returns days between dates." +:+ newline +:+ newline +:+ "Syntax: `DIFF_DAYS(date1, date2)`");
    ("PARSE_DATE",
       "Parses string to date." +:+ newline +:+ newline +:+ "Syntax: `PARSE_DATE(string, " +:+ dquote +:+ "format" +:+ dquote +:+ ")`");
    ("FORMAT_DATE",
       "Formats date to string." +:+ newline +:+ newline +:+ "Syntax: `FORMAT_DATE(date, " +:+ dquote +:+ "format" +:+ dquote +:+ ")`");
    ("IS_BEFORE",
       "Checks if date is before another." +:+ newline +:+ newline +:+ "Syntax: `IS_BEFORE(column, date)`");
    ("IS_AFTER",
       "Checks if date is after another." +:+ newline +:+ newline +:+ "Syntax: `IS_AFTER(column, date)`");
    ("IS_WEEKEND",
       "Checks if date is weekend." +:+ newline +:+ newline +:+ "Syntax: `IS_WEEKEND(column)`");
    ("SUM", "Sums values." +:+ newline +:+ newline +:+ "Syntax: `SUM(column)`");
    ("AVG", "Averages values." +:+ newline +:+ newline +:+ "Syntax: `AVG(column)`");
    ("MIN", "Finds minimum value." +:+ newline +:+ newline +:+ "Syntax: `MIN(column)`");
    ("MAX", "Finds maximum value." +:+ newline +:+ newline +:+ "Syntax: `MAX(column)`");
    ("COALESCE",
       "Returns first non-null value." +:+ newline +:+ newline +:+ "Syntax: `COALESCE(column, default)`");
    ("IFNULL",
       "Returns default if null." +:+ newline +:+ newline +:+ "Syntax: `IFNULL(column, default)`");
    ("IS_NULL",
       "Checks if value is null." +:+ newline +:+ newline +:+ "Syntax: `column IS_NULL`");
    ("IS_NOT_NULL",
       "Checks if value is not null." +:+ newline +:+ newline +:+ "Syntax: `column IS_NOT_NULL`") ].

(** [table[key]] on one of these object literals: the value of the own
    property [key], if any. *)
Fixpoint property (table : list (string * string)) (key : string) : option string :=
  match table with
  | [] => None
  | (k, v) :: table' => if String.eqb k key then Some v else property table' key
  end.

(** [Object.keys(table)] *)
Definition keys (table : list (string * string)) : list string := map fst table.

Definition ALL_KEYWORDS : list string := keys KEYWORD_DOCS.
Definition ALL_FUNCTIONS : list string := keys FUNCTION_DOCS.

(** The markdown of a hover: [`**${word}** (kind)\n\n${doc}`]. *)
Definition hoverText (word kind doc : string) : string :=
  "**" +:+ word +:+ "** (" +:+ kind +:+ ")" +:+ newline +:+ newline +:+ doc.

(** [provideHover]: [showHoverDocumentation] is the setting of that name and
    [word] the text of [document.getWordRangeAtPosition(position, /[A-Z_]+/)],
    [None] when there is no such range. *)
Definition provideHover (showHoverDocumentation : option bool) (word : option string)
  : option string :=
  if negb (default true showHoverDocumentation) then None
  else
    match word with
    | None => None
    | Some w =>
        if truthy_opt (property KEYWORD_DOCS w)
        then Some (hoverText w "keyword" (default EmptyString (property KEYWORD_DOCS w)))
        else if truthy_opt (property FUNCTION_DOCS w)
        then Some (hoverText w "function" (default EmptyString (property FUNCTION_DOCS w)))
        else None
    end.

Inductive CompletionItemKind := KindKeyword | KindFunction.

(** [vscode.CompletionItem]; [insertText] is the value of the snippet. *)
Record CompletionItem := mkCompletionItem {
  label : string;
  kind : CompletionItemKind;
  detail : string;
  documentation : string;
  insertText : option string
}.

(** The body of [for (const keyword of ALL_KEYWORDS)]. *)
Definition keywordItem (keyword : string) : CompletionItem :=
  mkCompletionItem keyword KindKeyword "Anka keyword"
                   (default EmptyString (property KEYWORD_DOCS keyword)) None.

(** The body of [for (const func of ALL_FUNCTIONS)]. *)
Definition functionItem (func : string) : CompletionItem :=
  mkCompletionItem func KindFunction "Anka function"
                   (default EmptyString (property FUNCTION_DOCS func))
                   (if bool_decide (func ∈ ["IS_NULL"; "IS_NOT_NULL"]) then None
                    else Some (func +:+ "($1)")).

(** [provideCompletionItems]; the document and the position are not read. *)
Definition provideCompletionItems : list CompletionItem :=
  map keywordItem ALL_KEYWORDS ++ map functionItem ALL_FUNCTIONS.

(** A non-empty string of capital letters and underscores: what the hover's
    word pattern [/[A-Z_]+/] matches. *)
Definition is_word_char (c : ascii) : bool :=
  let n := nat_of_ascii c in
  ((65 <=? n)%nat && (n <=? 90)%nat) || (n =? 95)%nat.

Fixpoint all_word_chars (s : string) : bool :=
  match s with
  | EmptyString => true
  | String c s' => is_word_char c && all_word_chars s'
  end.

Definition is_word (s : string) : bool := truthy s && all_word_chars s.

Definition kind_name (k : CompletionItemKind) : string :=
  match k with
  | KindKeyword => "keyword"
  | KindFunction => "function"
  end.

End Providers.
(** ** Further readings of the extension *)

Module Shapes.
Import Vscode Extension Reading.

(** The string contains a double quote. *)
Fixpoint has_dquote (s : string) : bool :=
  match s with
  | EmptyString => false
  | String c s' => bool_decide (c = ascii_of_nat 34) || has_dquote s'
  end.



(** The outcomes of the checker on which no diagnostic is shown. *)
Definition passes_for_clean `{RT : Runtime} (r : ExecResult) : Prop :=
  exec_error r = None
  /\ (truthy (stdout r) = false
      \/ (unreadable r /\ truthy (stderr r) = false)
      \/ reports_ok r = true
      \/ lists_nothing r).

End Shapes.
(** ** Facts about extension.ts *)

Module ExtensionFacts.
Import Vscode Extension Samples Reading.

Lemma append_inv_head (p a b : string) : p +:+ a = p +:+ b -> a = b.
Proof.
  induction p as [|c p IH]; simpl; intros H; [exact H|].
  injection H as H. auto.
Qed.

(** *** Doubles *)

Lemma round_to_double_exact (z : Z) :
  Z.abs z <= 2 ^ 53 -> round_to_double z = Finite z.
Proof.
  intros H. unfold round_to_double.
  destruct (Z.abs z <? 2 ^ 53) eqn:E; [reflexivity|].
  apply Z.ltb_ge in E.
  assert (Hz : z = 2 ^ 53 \/ z = - 2 ^ 53) by lia.
  destruct Hz as [-> | ->]; vm_compute; reflexivity.
Qed.

Lemma round_to_double_negative (z : Z) : z < 0 -> negative (round_to_double z).
Proof.
  intros Hz. unfold round_to_double.
  destruct (Z.abs z <? 2 ^ 53) eqn:E; [exact Hz|].
  apply Z.ltb_ge in E.
  set (m := Z.abs z) in *. set (k := Z.log2 m - 52).
  assert (Hm : 0 < m) by (pose proof (Z.pow_pos_nonneg 2 53); lia).
  assert (Hlog : 53 <= Z.log2 m) by (apply Z.log2_le_pow2; [exact Hm|exact E]).
  assert (Hk : 0 <= k <= Z.log2 m) by (unfold k; lia).
  assert (Hpow : 0 < 2 ^ k) by (apply Z.pow_pos_nonneg; lia).
  assert (Hle : 2 ^ k <= m) by (apply Z.log2_le_pow2; [exact Hm|lia]).
  assert (Hq : 1 <= m / 2 ^ k) by (apply Z.div_le_lower_bound; lia).
  set (q := m / 2 ^ k) in *.
  match goal with
  | |- context [if ?c then q + 1 else q] => set (q' := if c then q + 1 else q)
  end.
  assert (Hq' : 1 <= q') by (unfold q'; destruct (_ || _); lia).
  destruct (2 ^ 1024 <=? q' * 2 ^ k).
  - replace (0 <? z) with false by (symmetry; apply Z.ltb_ge; lia). exact I.
  - simpl. rewrite (Z.sgn_neg z Hz). nia.
Qed.

Lemma js_max0_negative (n : Number) : negative n -> js_max0 n = Finite 0.
Proof. destruct n as [w| |]; simpl; intros H; [f_equal; lia|contradiction|reflexivity]. Qed.

Lemma js_add_negative (n : Number) (k : Z) : negative n -> k <= 0 -> negative (js_add n k).
Proof.
  destruct n as [w| |]; simpl; intros H Hk; [|contradiction|exact I].
  apply round_to_double_negative. lia.
Qed.

(** The position computed by the loop body is the entry's position made
    0-based and clamped, wherever a double holds it exactly. *)
Lemma position_exact (n : option Z) :
  exact n ->
  js_max0 (js_add (num_or (round_to_double <$> n) (Finite 1)) (-1))
  = Finite (zero_based n).
Proof.
  unfold exact, zero_based. destruct n as [z|]; [|reflexivity].
  change (round_to_double <$> Some z) with (Some (round_to_double z)).
  change (default 1 (Some z)) with z.
  intros Hz. destruct (Z.lt_trichotomy z 0) as [Hneg|[-> |Hpos]].
  - pose proof (round_to_double_negative z Hneg) as Hn.
    assert (Hor : num_or (Some (round_to_double z)) (Finite 1) = round_to_double z).
    { destruct (round_to_double z) as [[| |]| |]; simpl in *; try reflexivity; lia. }
    rewrite Hor, js_max0_negative by (apply js_add_negative; [exact Hn|lia]).
    f_equal. lia.
  - reflexivity.
  - rewrite round_to_double_exact by lia.
    assert (Hor : num_or (Some (Finite z)) (Finite 1) = Finite z)
      by (destruct z; [lia|reflexivity..]).
    rewrite Hor. simpl. rewrite round_to_double_exact by lia. reflexivity.
Qed.

(** *** The loop over the entries *)

Lemma toDiagnostic_Some (e : DiagnosticEntry) (d : Diagnostic) :
  toDiagnostic e = Some d ->
  truthy (entry_message e) = true /\ renders_as_error e d.
Proof.
  unfold toDiagnostic, newDiagnostic.
  destruct (truthy (entry_message e)); [|discriminate].
  intros [= <-]. split; [reflexivity|].
  unfold renders_as_error; simpl.
  repeat split; intros H; by apply position_exact.
Qed.

Lemma toDiagnostic_None (e : DiagnosticEntry) :
  toDiagnostic e = None <-> truthy (entry_message e) = false.
Proof.
  unfold toDiagnostic, newDiagnostic.
  destruct (truthy (entry_message e)); split; congruence.
Qed.

(** The loop pushes one diagnostic per entry up to the first entry without
    a message, and is left by an exception exactly when there is one. *)
Lemma pushDiagnostics_readable (es : list DiagnosticEntry) :
  Forall2 (fun e d => toDiagnostic e = Some d) (readable es) (pushDiagnostics es).1
  /\ (pushDiagnostics es).2 = negb (forallb (fun e => truthy (entry_message e)) es).
Proof.
  induction es as [|e es [IH1 IH2]]; simpl; [split; [constructor|reflexivity]|].
  destruct (toDiagnostic e) as [d|] eqn:E.
  - apply toDiagnostic_Some in E as HE. destruct HE as [Hm _]. rewrite Hm.
    destruct (pushDiagnostics es) as [ds thrown]. simpl in *.
    split; [by constructor|exact IH2].
  - apply toDiagnostic_None in E. rewrite E. split; [constructor|reflexivity].
Qed.

Lemma readable_all (es : list DiagnosticEntry) :
  Forall (fun e => truthy (entry_message e) = true) es ->
  readable es = es /\ forallb (fun e => truthy (entry_message e)) es = true.
Proof.
  induction 1 as [|e es He _ [IH1 IH2]]; [by split|].
  simpl. rewrite He, IH1, IH2. by split.
Qed.

Lemma apply_effects_app (ed : Editor) (es fs : list Effect) :
  apply_effects ed (es ++ fs) = apply_effects (apply_effects ed es) fs.
Proof. unfold apply_effects. apply foldl_app. Qed.

Section WithRuntime.
Context `{RT : Runtime}.
Variable settings : Settings.

Lemma check_is_not_run (python f g i : string) :
  check_command_line python f <> run_command_line python g i.
Proof.
  unfold check_command_line, run_command_line. intros H.
  apply append_inv_head in H. simpl in H. discriminate H.
Qed.

Lemma parse_is_not_run (python f g i : string) :
  parse_command_line python f <> run_command_line python g i.
Proof.
  unfold parse_command_line, run_command_line. intros H.
  apply append_inv_head in H. simpl in H. discriminate H.
Qed.

Lemma parsedDiagnostics_notes (r : ExecResult) :
  (parsedDiagnostics r).1
  = if reports_ok r then [ShowInformationMessage "Anka: No syntax errors"] else [].
Proof.
  unfold parsedDiagnostics, reports_ok.
  destruct (truthy (stdout r)); simpl; [|reflexivity].
  destruct (JSON_parse (stdout r)) as [v|]; [|reflexivity].
  destruct (check_result v) as [result|]; [|reflexivity].
  case_bool_decide as Hst; [reflexivity|].
  destruct (errors result) as [[|e es]|]; reflexivity.
Qed.

Lemma parsedDiagnostics_ok (r : ExecResult) :
  reports_ok r = true -> (parsedDiagnostics r).2 = [].
Proof.
  unfold parsedDiagnostics, reports_ok.
  destruct (truthy (stdout r)); simpl; [|discriminate].
  destruct (JSON_parse (stdout r)) as [v|]; [|discriminate].
  destruct (check_result v) as [result|]; [|discriminate].
  case_bool_decide as Hst; [reflexivity|discriminate].
Qed.

(** What the [try] block leaves behind when the checker lists entries. *)
Lemma parsedDiagnostics_entries (r : ExecResult) (v : json) (result : CheckResult)
    (es : list DiagnosticEntry) :
  truthy (stdout r) = true ->
  JSON_parse (stdout r) = Some v ->
  check_result v = Some result ->
  status result <> Some "ok" ->
  errors result = Some es ->
  (parsedDiagnostics r).2
  = (pushDiagnostics es).1 ++ (if (pushDiagnostics es).2 then caught r else []).
Proof.
  intros Hout Hparse Hres Hst Herr. unfold parsedDiagnostics.
  rewrite Hout, Hparse, Hres. case_bool_decide as Hok; [contradiction|].
  rewrite Herr. destruct es as [|e es]; [reflexivity|]. cbv zeta.
  destruct (pushDiagnostics (e :: es)).2; simpl; [reflexivity|].
  by rewrite app_nil_r.
Qed.

(** What the [try] block leaves behind when it gives up at once. *)
Lemma parsedDiagnostics_unreadable (r : ExecResult) :
  truthy (stdout r) = true -> unreadable r -> (parsedDiagnostics r).2 = caught r.
Proof.
  intros Hout Hun. unfold parsedDiagnostics. rewrite Hout.
  destruct Hun as [Hp|[(v & Hp & Hres)|(v & result & e & es & Hp & Hres & Hst & Herr & Hmsg)]].
  - rewrite Hp. reflexivity.
  - rewrite Hp, Hres. reflexivity.
  - rewrite Hp, Hres. case_bool_decide as Hok; [contradiction|].
    rewrite Herr. simpl.
    assert (Hnone : toDiagnostic e = None) by (apply toDiagnostic_None; by rewrite Hmsg).
    rewrite Hnone. reflexivity.
Qed.

Lemma parsedDiagnostics_nothing (r : ExecResult) :
  lists_nothing r -> (parsedDiagnostics r).2 = [].
Proof.
  intros (v & result & Hp & Hres & Hst & Herr). unfold parsedDiagnostics.
  destruct (truthy (stdout r)); [|reflexivity].
  rewrite Hp, Hres. case_bool_decide as Hok; [contradiction|].
  destruct Herr as [-> | ->]; reflexivity.
Qed.

Lemma checkDiagnostics_error (r : ExecResult) :
  exec_error r <> None -> checkDiagnostics r <> [].
Proof.
  intros He. unfold checkDiagnostics.
  destruct (exec_error r); [|contradiction].
  destruct (parsedDiagnostics r).2; discriminate.
Qed.

Lemma checkDiagnostics_no_error (r : ExecResult) :
  exec_error r = None -> checkDiagnostics r = (parsedDiagnostics r).2.
Proof. intros He. unfold checkDiagnostics. rewrite He. reflexivity. Qed.

Lemma checkDiagnostics_nonempty (r : ExecResult) :
  (parsedDiagnostics r).2 <> [] -> checkDiagnostics r = (parsedDiagnostics r).2.
Proof.
  intros Hne. unfold checkDiagnostics.
  destruct (exec_error r); [|reflexivity].
  destruct (parsedDiagnostics r).2; [contradiction|reflexivity].
Qed.

(** The [if (error && diagnostics.length === 0)] fallback, spelled out. *)
Lemma checkDiagnostics_fallback (r : ExecResult) :
  (parsedDiagnostics r).2 = [] ->
  checkDiagnostics r
  = match exec_error r with
    | Some _ => [fallbackDiagnostic (or_else (stderr r) "Unknown error occurred")]
    | None => []
    end.
Proof.
  intros H. unfold checkDiagnostics. rewrite H. destruct (exec_error r); reflexivity.
Qed.

Lemma checkAnkaFile_shape (document : TextDocument) :
  let command := check_command_line (getPythonPath settings) (fsPath document) in
  let r := cp_exec command (rootPath settings) in
  checkAnkaFile settings document
  = Exec command (rootPath settings)
    :: (if reports_ok r then [ShowInformationMessage "Anka: No syntax errors"] else [])
    ++ [DiagnosticsSet (fsPath document) (checkDiagnostics r)].
Proof.
  simpl. unfold checkAnkaFile, checkCallback.
  rewrite parsedDiagnostics_notes. reflexivity.
Qed.

Lemma runCallback_lines (r : ExecResult) (e : Effect) :
  e ∈ runCallback r -> exists t, e = ChannelAppendLine t.
Proof.
  unfold runCallback. rewrite !elem_of_app.
  intros [H|[H|H]].
  - destruct (truthy (stdout r)); [|by apply elem_of_nil in H].
    destruct (JSON_parse (stdout r)); apply list_elem_of_singleton in H; eauto.
  - destruct (truthy (stderr r)); [|by apply elem_of_nil in H].
    apply list_elem_of_singleton in H; eauto.
  - destruct (exec_error r); [|by apply elem_of_nil in H].
    apply list_elem_of_singleton in H; eauto.
Qed.

Lemma spawned_lines (ed : Editor) (es : list Effect) :
  (forall e, e ∈ es -> exists t, e = ChannelAppendLine t) ->
  spawned (apply_effects ed es) = spawned ed.
Proof.
  revert ed. induction es as [|e es IH]; intros ed H; [reflexivity|].
  unfold apply_effects; simpl. fold (apply_effects (apply_effect ed e) es).
  rewrite IH.
  - destruct (H e) as [t ->]; [left|reflexivity].
  - intros e' He'. apply H. by right.
Qed.

Lemma checkAnkaFile_collection (document : TextDocument) (ed : Editor) :
  diagnosticCollection (apply_effects ed (checkAnkaFile settings document))
  = <[fsPath document :=
        checkDiagnostics (cp_exec (check_command_line (getPythonPath settings)
                                                      (fsPath document))
                                  (rootPath settings))]>
      (diagnosticCollection ed).
Proof.
  rewrite checkAnkaFile_shape.
  destruct (reports_ok _); reflexivity.
Qed.

Lemma parse_only_not_executed (filePath : string) (inputFile : option string) :
  runCommandLine settings filePath inputFile
  = parse_command_line (getPythonPath settings) filePath ->
  ~ executes_pipeline settings filePath inputFile.
Proof.
  intros Hc [input H]. unfold runAnkaFile in H.
  rewrite elem_of_app in H. destruct H as [H|H].
  - rewrite !elem_of_cons in H.
    destruct H as [H|[H|[H|[H|[H|H]]]]]; try discriminate H.
    + injection H as H. rewrite Hc in H. symmetry in H.
      by apply parse_is_not_run in H.
    + by apply elem_of_nil in H.
  - apply runCallback_lines in H as [t H]. discriminate H.
Qed.




Lemma commands_need_anka_file (editor : option TextDocument) (inputBox : option string) :
  isAnkaEditor editor = None ->
  runCommand settings editor inputBox = [ShowErrorMessage "Please open an Anka file first"]
  /\ checkCommand settings editor = [ShowErrorMessage "Please open an Anka file first"].
Proof. intros H. unfold runCommand, checkCommand. rewrite H. auto. Qed.

Lemma onSave_checks (d : TextDocument) :
  languageId d = "anka" ->
  checkOnSave settings <> Some false ->
  onSave settings d = checkAnkaFile settings d.
Proof.
  intros Hl Hc. unfold onSave.
  rewrite bool_decide_eq_true_2 by exact Hl.
  destruct (checkOnSave settings) as [[|]|]; [reflexivity|contradiction|reflexivity].
Qed.

(** The lines of the output channel after [runAnkaFile]. *)
Lemma runAnkaFile_channel (filePath : string) (inputFile : option string) (ed : Editor) :
  channel (apply_effects ed (runAnkaFile settings filePath inputFile))
  = ["Running: " +:+ runCommandLine settings filePath inputFile +:+ newline]
    ++ (let r := cp_exec (runCommandLine settings filePath inputFile)
                         (rootPath settings) in
        (if truthy (stdout r)
         then [match JSON_parse (stdout r) with
               | Some v => JSON_stringify v
               | None => stdout r
               end]
         else [])
        ++ (if truthy (stderr r) then ["Error: " +:+ stderr r] else [])
        ++ (match exec_error r with
            | Some e => ["Exit code: " +:+ show_code (code e)]
            | None => []
            end)).
Proof.
  unfold runAnkaFile, runCallback. cbv zeta.
  destruct (truthy (stdout _));
    [destruct (JSON_parse (stdout _))|];
    destruct (truthy (stderr _));
    destruct (exec_error _); reflexivity.
Qed.

(** C1 (as amended).  When the checker's output parses to an object whose
    status is not ['ok'] and which lists entries that all have a message,
    the diagnostics [checkAnkaFile] sets for the document are the entries
    in the same order, each with the entry's message and severity Error
    whatever the entry's own severity is, positioned at the entry's line
    and column made 0-based and clamped at 0 (for every line and column up
    to 2^53, which a double holds exactly). *)
Theorem checkAnkaFile_renders_entries
    (document : TextDocument) (v : json) (result : CheckResult)
    (es : list DiagnosticEntry) :
  let r := cp_exec (check_command_line (getPythonPath settings) (fsPath document))
                   (rootPath settings) in
  truthy (stdout r) = true ->
  JSON_parse (stdout r) = Some v ->
  check_result v = Some result ->
  status result <> Some "ok" ->
  errors result = Some es ->
  Forall (fun e => truthy (entry_message e) = true) es ->
  es <> [] \/ exec_error r = None ->
  exists ds,
    last (checkAnkaFile settings document) = Some (DiagnosticsSet (fsPath document) ds)
    /\ Forall2 renders_as_error es ds.
Proof.
  intros r Hout Hparse Hres Hst Herr Hmsg Hne.
  exists (pushDiagnostics es).1. split.
  - rewrite checkAnkaFile_shape. fold r.
    rewrite app_comm_cons, last_snoc. do 2 f_equal.
    pose proof (parsedDiagnostics_entries r v result es Hout Hparse Hres Hst Herr) as Hp.
    destruct (readable_all es Hmsg) as [Hall Hfor].
    destruct (pushDiagnostics_readable es) as [Hpush Hthrown].
    rewrite Hthrown, Hfor in Hp. simpl in Hp. rewrite app_nil_r in Hp.
    destruct Hne as [Hne|Hne].
    + rewrite checkDiagnostics_nonempty; [exact Hp|].
      rewrite Hp. rewrite Hall in Hpush.
      destruct Hpush; [contradiction|discriminate].
    + rewrite checkDiagnostics_no_error; assumption.
  - destruct (readable_all es Hmsg) as [Hall _].
    destruct (pushDiagnostics_readable es) as [Hpush _]. rewrite Hall in Hpush.
    eapply Forall2_impl; [exact Hpush|].
    intros e d Hd. by apply toDiagnostic_Some in Hd as [_ Hd].
Qed.

(** C2 (as amended).  [runAnkaFile] spawns exactly one process.  Given a
    non-empty input file it is the run subcommand, with [--json], on the
    pipeline file and the resolved input path; given none (or an empty
    one) it is the parse subcommand and the pipeline is not run.  The
    output channel then shows the command, the subprocess' stdout (the
    OUTPUT value or the error envelope, pretty-printed when it is JSON and
    verbatim otherwise), its stderr behind [Error: ] and its exit code
    behind [Exit code: ], and nothing else. *)
Theorem runAnkaFile_executes_with_input
    (filePath : string) (inputFile : option string) (ed : Editor) :
  let command := runCommandLine settings filePath inputFile in
  let r := cp_exec command (rootPath settings) in
  let ed' := apply_effects ed (runAnkaFile settings filePath inputFile) in
  spawned ed' = spawned ed ++ [command]
  /\ Exec command (rootPath settings) ∈ runAnkaFile settings filePath inputFile
  /\ (if truthy_opt inputFile
      then executes_pipeline settings filePath inputFile
           /\ exists f,
                inputFile = Some f
                /\ command
                   = quoted (getPythonPath settings) +:+ " -m anka run "
                     +:+ quoted filePath +:+ " "
                     +:+ quoted (if path_isAbsolute f then f
                                 else path_join (path_dirname filePath) f)
                     +:+ " --json"
      else command
           = quoted (getPythonPath settings) +:+ " -m anka parse " +:+ quoted filePath
           /\ ~ executes_pipeline settings filePath inputFile)
  /\ channel ed'
     = ["Running: " +:+ command +:+ newline]
       ++ (if truthy (stdout r)
           then [match JSON_parse (stdout r) with
                 | Some v => JSON_stringify v
                 | None => stdout r
                 end]
           else [])
       ++ (if truthy (stderr r) then ["Error: " +:+ stderr r] else [])
       ++ (match exec_error r with
           | Some e => ["Exit code: " +:+ show_code (code e)]
           | None => []
           end).
Proof.
  intros command r ed'.
  assert (Hin : Exec command (rootPath settings)
                ∈ runAnkaFile settings filePath inputFile).
  { unfold runAnkaFile. fold command. rewrite elem_of_app. left.
    do 4 right. left. }
  split; [|split; [exact Hin|split]].
  - subst ed'. unfold runAnkaFile. fold command. fold r.
    rewrite apply_effects_app, spawned_lines by apply runCallback_lines.
    reflexivity.
  - pose proof (parse_only_not_executed filePath inputFile) as Hnot.
    fold command in Hnot.
    destruct inputFile as [f|]; simpl.
    + destruct (truthy f) eqn:Hf.
      * assert (Hc : command
                     = run_command_line (getPythonPath settings) filePath
                                        (resolvedInputPath filePath f))
          by (unfold command, runCommandLine; rewrite Hf; reflexivity).
        split.
        -- exists (resolvedInputPath filePath f). by rewrite <- Hc.
        -- exists f. split; [reflexivity|exact Hc].
      * assert (Hc : command = parse_command_line (getPythonPath settings) filePath)
          by (unfold command, runCommandLine; rewrite Hf; reflexivity).
        split; [exact Hc|auto].
    + split; [reflexivity|auto].
  - subst ed'. apply runAnkaFile_channel.
Qed.

(** C3 (as amended).  [checkAnkaFile] spawns exactly one process, the check
    subcommand, which is never a run command line; it leaves the output
    channel and the diagnostics of every other document alone and sets the
    diagnostics of the checked document; and, when the checker reports
    status ['ok'], it also shows an information message. *)
Theorem checkAnkaFile_effects (document : TextDocument) (ed : Editor) :
  let command := check_command_line (getPythonPath settings) (fsPath document) in
  let r := cp_exec command (rootPath settings) in
  let ed' := apply_effects ed (checkAnkaFile settings document) in
  spawned ed' = spawned ed ++ [command]
  /\ (forall f i, command <> run_command_line (getPythonPath settings) f i)
  /\ channel ed' = channel ed
  /\ diagnosticCollection ed'
     = <[fsPath document := checkDiagnostics r]> (diagnosticCollection ed)
  /\ (forall u, u <> fsPath document ->
        diagnosticCollection ed' !! u = diagnosticCollection ed !! u)
  /\ notifications ed'
     = notifications ed
       ++ (if reports_ok r then ["Anka: No syntax errors"] else []).
Proof.
  intros command r ed'.
  pose proof (checkAnkaFile_collection document ed) as Hd.
  fold command in Hd. fold r in Hd. fold ed' in Hd.
  repeat split.
  - subst ed'. rewrite checkAnkaFile_shape. fold command. fold r.
    destruct (reports_ok r); reflexivity.
  - intros f i. apply check_is_not_run.
  - subst ed'. rewrite checkAnkaFile_shape. fold command. fold r.
    destruct (reports_ok r); reflexivity.
  - exact Hd.
  - intros u Hu. rewrite Hd. by apply lookup_insert_ne.
  - subst ed'. rewrite checkAnkaFile_shape. fold command. fold r.
    destruct (reports_ok r); simpl; [reflexivity|].
    by rewrite app_nil_r.
Qed.

(** C9 (as amended).  A completed check sets the document's diagnostics
    exactly once, as its last effect, to the freshly computed list, which
    replaces whatever the collection held for the document.  When the
    checker reports status ['ok'], lists no entry, or printed nothing on
    stdout, the list is empty if the subprocess did not fail and is the
    single fallback diagnostic at line 0, column 0 if it failed.  When the
    [try] block gives up at once (stdout is not JSON, is [null], or starts
    with an entry without message), the list is that fallback diagnostic
    if stderr is non-empty or the subprocess failed, and empty otherwise.
    The list is never empty when the subprocess failed. *)
Theorem checkAnkaFile_sets_diagnostics_once (document : TextDocument) (ed : Editor) :
  let command := check_command_line (getPythonPath settings) (fsPath document) in
  let r := cp_exec command (rootPath settings) in
  let ed' := apply_effects ed (checkAnkaFile settings document) in
  let fallback :=
    mkDiagnostic (mkRange (Finite 0) (Finite 0) (Finite 0) (Finite 10))
                 (or_else (stderr r) "Unknown error occurred") SevError None in
  let if_failed :=
    match exec_error r with
    | Some _ => [fallback]
    | None => []
    end in
  (exists before,
      checkAnkaFile settings document
      = before ++ [DiagnosticsSet (fsPath document) (checkDiagnostics r)]
      /\ Forall (fun e => ~ is_diagnostics_set e) before)
  /\ diagnosticCollection ed' !! fsPath document = Some (checkDiagnostics r)
  /\ (reports_ok r = true -> checkDiagnostics r = if_failed)
  /\ (lists_nothing r -> checkDiagnostics r = if_failed)
  /\ (truthy (stdout r) = false -> checkDiagnostics r = if_failed)
  /\ (truthy (stdout r) = true -> unreadable r ->
      checkDiagnostics r = if truthy (stderr r) then [fallback] else if_failed)
  /\ (exec_error r <> None -> checkDiagnostics r <> []).
Proof.
  intros command r ed' fallback if_failed.
  split; [|split; [|split; [|split; [|split; [|split]]]]].
  - exists (Exec command (rootPath settings)
            :: (if reports_ok r
                then [ShowInformationMessage "Anka: No syntax errors"] else [])).
    split.
    + rewrite checkAnkaFile_shape. reflexivity.
    + destruct (reports_ok r); repeat constructor; simpl; tauto.
  - subst ed'. rewrite checkAnkaFile_collection. apply lookup_insert_eq.
  - intros Hok. apply checkDiagnostics_fallback. by apply parsedDiagnostics_ok.
  - intros Hn. apply checkDiagnostics_fallback. by apply parsedDiagnostics_nothing.
  - intros Hout. apply checkDiagnostics_fallback.
    unfold parsedDiagnostics. rewrite Hout. reflexivity.
  - intros Hout Hun.
    pose proof (parsedDiagnostics_unreadable r Hout Hun) as Hp.
    unfold caught in Hp. subst if_failed fallback. unfold or_else.
    destruct (truthy (stderr r)) eqn:Herr.
    + unfold checkDiagnostics. rewrite Hp. destruct (exec_error r); reflexivity.
    + rewrite (checkDiagnostics_fallback r Hp). unfold or_else. rewrite Herr.
      reflexivity.
  - apply checkDiagnostics_error.
Qed.

(** C10.  Given a non-empty input file, [runAnkaFile] spawns the run
    subcommand in the workspace root on the input path resolved as follows:
    a relative path is joined onto the directory of the pipeline file, an
    absolute path is passed through unchanged; the workspace root (the
    working directory of the subprocess) plays no part in the command
    line. *)
Theorem runAnkaFile_resolves_input (filePath f : string) :
  truthy f = true ->
  (path_isAbsolute f = false ->
   Exec (run_command_line (getPythonPath settings) filePath
                          (path_join (path_dirname filePath) f))
        (rootPath settings)
   ∈ runAnkaFile settings filePath (Some f))
  /\ (path_isAbsolute f = true ->
      Exec (run_command_line (getPythonPath settings) filePath f) (rootPath settings)
      ∈ runAnkaFile settings filePath (Some f))
  /\ (forall root,
        runCommandLine (mkSettings (pythonPath settings) (checkOnSave settings) root)
                       filePath (Some f)
        = runCommandLine settings filePath (Some f)).
Proof.
  intros Hf.
  assert (Hin : Exec (runCommandLine settings filePath (Some f)) (rootPath settings)
                ∈ runAnkaFile settings filePath (Some f)).
  { unfold runAnkaFile. rewrite elem_of_app. left. do 4 right. left. }
  unfold runCommandLine, resolvedInputPath in *. rewrite Hf in *.
  repeat split.
  - intros Ha. rewrite Ha in Hin. exact Hin.
  - intros Ha. rewrite Ha in Hin. exact Hin.
Qed.

End WithRuntime.

(** *** The properties at concrete inputs *)

Example check_command_text :
  check_command_line (getPythonPath default_settings) (fsPath pipeline_doc)
  = quoted "python" +:+ " -m anka check " +:+ quoted "/work/etl/sales.anka" +:+ " --json".
Proof. reflexivity. Qed.

Example posix_dirname_pipeline : posix_dirname "/work/etl/sales.anka" = "/work/etl".
Proof. reflexivity. Qed.

Example one_past_the_safe_integers :
  round_to_double (2 ^ 53 + 1) = Finite (2 ^ 53)
  /\ round_to_double (10 ^ 17 + 10) = Finite (10 ^ 17 + 16)
  /\ round_to_double (10 ^ 17 - 1) = Finite (10 ^ 17).
Proof. repeat split; vm_compute; reflexivity. Qed.

(** Witness of C1: the two sample entries are rendered in order. *)
Lemma checkAnkaFile_renders_entries_witness :
  exists ds,
    last (checkAnkaFile (RT := stub findings_output (Some findings_result) findings_pretty)
                        default_settings pipeline_doc)
    = Some (DiagnosticsSet "/work/etl/sales.anka" ds)
    /\ Forall2 renders_as_error two_entries ds.
Proof.
  apply (checkAnkaFile_renders_entries
           (RT := stub findings_output (Some findings_result) findings_pretty)
           default_settings pipeline_doc findings_result findings_result two_entries).
  - reflexivity.
  - vm_compute. reflexivity.
  - reflexivity.
  - simpl. discriminate.
  - reflexivity.
  - repeat constructor.
  - left. discriminate.
Defined.

(** C1 as stated fails: the checker's warning entry reaches the user as an
    error, so the diagnostics do not carry the entries' severities. *)
Lemma warning_entry_shown_as_error :
  exists ds,
    last (checkAnkaFile (RT := stub findings_output (Some findings_result) findings_pretty)
                        default_settings pipeline_doc)
    = Some (DiagnosticsSet "/work/etl/sales.anka" ds)
    /\ ~ Forall2 renders_with_severity two_entries ds.
Proof.
  eexists. split; [vm_compute; reflexivity|].
  intros H. inversion H as [|e d es ds' Hhd Htl]; subst.
  destruct Hhd as (_ & Hsev & _). simpl in Hsev. discriminate Hsev.
Qed.

(** An entry without a message ends the list: the entry before it is
    shown, the one after it is not, and stderr is appended. *)
Example broken_check_trace :
  checkAnkaFile (RT := stub broken_output (Some broken_result) broken_pretty)
                default_settings pipeline_doc
  = [ Exec (quoted "python" +:+ " -m anka check " +:+ quoted "/work/etl/sales.anka"
            +:+ " --json") (Some "/work");
      DiagnosticsSet "/work/etl/sales.anka"
        [ mkDiagnostic (mkRange (Finite 1) (Finite 0) (Finite 1) (Finite 10))
                       "unknown operator" SevError (Some "anka");
          mkDiagnostic (mkRange (Finite 0) (Finite 0) (Finite 0) (Finite 10))
                       "checker crashed" SevError None ] ].
Proof. vm_compute. reflexivity. Qed.

(** Beyond 2^53 the position is not shifted and the range is 16 wide. *)
Example distant_entry_range :
  range <$> toDiagnostic distant_entry
  = Some (mkRange (Finite (10 ^ 17)) (Finite (10 ^ 17)) (Finite (10 ^ 17))
                  (Finite (10 ^ 17 + 16))).
Proof. vm_compute. reflexivity. Qed.

(** The value [null] on stdout is treated like text that is not JSON. *)
Example null_check_trace :
  checkAnkaFile (RT := stub_null null_output) default_settings pipeline_doc
  = [ Exec (quoted "python" +:+ " -m anka check " +:+ quoted "/work/etl/sales.anka"
            +:+ " --json") (Some "/work");
      DiagnosticsSet "/work/etl/sales.anka" [fallbackDiagnostic "boom"] ].
Proof. vm_compute. reflexivity. Qed.

(** C2 as stated fails: with no input file the run subcommand is not
    spawned, the pipeline is only parsed. *)
Lemma run_without_input_only_parses :
  ~ executes_pipeline (RT := stub parse_output None EmptyString)
      default_settings "/work/etl/sales.anka" None.
Proof. apply parse_only_not_executed. reflexivity. Qed.

Example run_without_input_trace :
  runAnkaFile (RT := stub parse_output None EmptyString)
              default_settings "/work/etl/sales.anka" None
  = [ CreateOutputChannel "Anka"; ChannelShow; ChannelClear;
      ChannelAppendLine ("Running: " +:+ quoted "python" +:+ " -m anka parse "
                         +:+ quoted "/work/etl/sales.anka" +:+ newline);
      Exec (quoted "python" +:+ " -m anka parse " +:+ quoted "/work/etl/sales.anka")
           (Some "/work");
      ChannelAppendLine "PIPELINE sales: 2 steps" ].
Proof. vm_compute. reflexivity. Qed.

(** A run on an input file that printed a table, and one that failed. *)
Example run_with_input_channel :
  channel (apply_effects some_editor
             (runAnkaFile (RT := stub run_output (Some run_value) run_pretty)
                          default_settings "/work/etl/sales.anka" (Some "data/in.json")))
  = [ "Running: " +:+ quoted "python" +:+ " -m anka run "
        +:+ quoted "/work/etl/sales.anka" +:+ " " +:+ quoted "/work/etl/data/in.json"
        +:+ " --json" +:+ newline;
      run_pretty ].
Proof. vm_compute. reflexivity. Qed.

Example failed_run_channel :
  channel (apply_effects some_editor
             (runAnkaFile (RT := stub failed_run None EmptyString)
                          default_settings "/work/etl/sales.anka" (Some "/data/in.json")))
  = [ "Running: " +:+ quoted "python" +:+ " -m anka run "
        +:+ quoted "/work/etl/sales.anka" +:+ " " +:+ quoted "/data/in.json"
        +:+ " --json" +:+ newline;
      "error: step filter_active failed";
      "Error: DivisionByZero at line 4";
      "Exit code: 1" ].
Proof. vm_compute. reflexivity. Qed.

(** C3 as stated fails: on a clean check an information message is shown
    besides the diagnostics being set. *)
Lemma clean_check_shows_message :
  ~ only_sets_diagnostics
      (checkAnkaFile (RT := stub clean_output (Some clean_result) clean_pretty)
                     default_settings pipeline_doc).
Proof.
  intros H. vm_compute in H.
  inversion H as [|e es _ Htl]; subst.
  inversion Htl as [|e' es' Hmsg _]; subst.
  exact Hmsg.
Qed.

Example clean_check_trace :
  checkAnkaFile (RT := stub clean_output (Some clean_result) clean_pretty)
                default_settings pipeline_doc
  = [ Exec (quoted "python" +:+ " -m anka check " +:+ quoted "/work/etl/sales.anka"
            +:+ " --json") (Some "/work");
      ShowInformationMessage "Anka: No syntax errors";
      DiagnosticsSet "/work/etl/sales.anka" [] ].
Proof. vm_compute. reflexivity. Qed.

(** C9 as stated fails: stdout that is not JSON, with an empty stderr and a
    zero exit status, leaves the document without any diagnostic. *)
Lemma garbled_check_reports_nothing :
  ~ always_reports (RT := stub garbled_output None EmptyString) garbled_output.
Proof.
  intros H. apply H.
  - left. vm_compute. reflexivity.
  - vm_compute. reflexivity.
Qed.

Example garbled_check_trace :
  checkAnkaFile (RT := stub garbled_output None EmptyString)
                default_settings pipeline_doc
  = [ Exec (quoted "python" +:+ " -m anka check " +:+ quoted "/work/etl/sales.anka"
            +:+ " --json") (Some "/work");
      DiagnosticsSet "/work/etl/sales.anka" [] ].
Proof. vm_compute. reflexivity. Qed.

Example failed_check_trace :
  checkAnkaFile (RT := stub failed_output None EmptyString)
                default_settings pipeline_doc
  = [ Exec (quoted "python" +:+ " -m anka check " +:+ quoted "/work/etl/sales.anka"
            +:+ " --json") (Some "/work");
      DiagnosticsSet "/work/etl/sales.anka"
        [fallbackDiagnostic "python: command not found"] ].
Proof. vm_compute. reflexivity. Qed.

(** A clean check after a failed one leaves no diagnostic behind. *)
Example clean_check_clears_stale :
  diagnosticCollection
    (apply_effects some_editor
       (checkAnkaFile (RT := stub clean_output (Some clean_result) clean_pretty)
                      default_settings pipeline_doc))
  !! "/work/etl/sales.anka" = Some [].
Proof.
  rewrite checkAnkaFile_collection, lookup_insert_eq. vm_compute. reflexivity.
Qed.

(** Witness of C10: a relative input path lands next to the pipeline file. *)
Lemma runAnkaFile_resolves_input_witness :
  truthy "data/in.json" = true
  /\ posix_isAbsolute "data/in.json" = false
  /\ Exec (quoted "python" +:+ " -m anka run " +:+ quoted "/work/etl/sales.anka"
           +:+ " " +:+ quoted "/work/etl/data/in.json" +:+ " --json") (Some "/work")
     ∈ runAnkaFile (RT := stub run_output (Some run_value) run_pretty)
                   default_settings "/work/etl/sales.anka" (Some "data/in.json").
Proof.
  split; [reflexivity|]. split; [reflexivity|].
  apply (runAnkaFile_resolves_input
           (RT := stub run_output (Some run_value) run_pretty)
           default_settings "/work/etl/sales.anka" "data/in.json");
    reflexivity.
Defined.

End ExtensionFacts.
(** ** Facts about the core *)

Module CoreFacts.
Import Core CoreReading.

Lemma is_true_iff (v : Value) : is_true v = true <-> v = VBool true.
Proof.
  split; [|intros ->; reflexivity].
  destruct v as [| | |[|]| | | | |]; simpl; intros H; try discriminate H; reflexivity.
Qed.

Lemma FILTER_cons (sigma : Scope) (pred : Expr) (r : Row) (t : Table) :
  FILTER sigma pred (r :: t)
  = match eval sigma r pred with
    | Ok v =>
        match FILTER sigma pred t with
        | Ok kept => Ok (if is_true v then r :: kept else kept)
        | Err k m => Err k m
        end
    | Err k m => Err k m
    end.
Proof. simpl. destruct (eval sigma r pred); reflexivity. Qed.

Lemma FILTER_is_filter (sigma : Scope) (pred : Expr) (t t' : Table) :
  FILTER sigma pred t = Ok t' -> t' = List.filter (keeps sigma pred) t.
Proof.
  revert t'. induction t as [|r t IH]; intros t' H.
  - simpl in H. injection H as <-. reflexivity.
  - rewrite FILTER_cons in H. simpl. unfold keeps at 1.
    destruct (eval sigma r pred) as [v|k m]; [|discriminate H].
    destruct (FILTER sigma pred t) as [kept|k m]; [|discriminate H].
    injection H as <-. rewrite (IH kept eq_refl).
    destruct (is_true v); reflexivity.
Qed.

(** FILTER fails exactly when the predicate fails on some row. *)
Lemma FILTER_total (sigma : Scope) (pred : Expr) (t : Table) :
  Forall (fun r => exists v, eval sigma r pred = Ok v) t ->
  exists t', FILTER sigma pred t = Ok t'.
Proof.
  induction 1 as [|r t [v Hv] _ [kept IH]]; [by exists []|].
  rewrite FILTER_cons, Hv, IH. eauto.
Qed.

Lemma filter_sublist {A} (f : A -> bool) (l : list A) :
  List.filter f l `sublist_of` l.
Proof.
  induction l as [|x l IH]; simpl; [constructor|].
  destruct (f x); by constructor.
Qed.

(** C4.  Whenever FILTER produces a table, it holds exactly the rows of the
    input on which the predicate evaluates to BOOL true: each of its rows
    is a row of the input, and its rows appear in the input's order (it is
    a subsequence of the input). *)
Theorem FILTER_keeps_true_rows (sigma : Scope) (pred : Expr) (t t' : Table) :
  FILTER sigma pred t = Ok t' ->
  t' = List.filter (keeps sigma pred) t
  /\ t' `sublist_of` t
  /\ (forall r, r ∈ t' -> r ∈ t)
  /\ (forall r, r ∈ t' <-> r ∈ t /\ eval sigma r pred = Ok (VBool true)).
Proof.
  intros H. apply FILTER_is_filter in H. subst t'.
  split; [reflexivity|]. split; [apply filter_sublist|]. split.
  - intros r Hr. apply list_elem_of_In in Hr. apply filter_In in Hr as [Hr _].
    by apply list_elem_of_In.
  - intros r. rewrite !list_elem_of_In, filter_In. unfold keeps.
    split; intros [Hr Hk]; (split; [exact Hr|]).
    + destruct (eval sigma r pred) as [v|]; [|discriminate Hk].
      apply is_true_iff in Hk. by subst v.
    + rewrite Hk. reflexivity.
Qed.

Lemma ordering_null_l (op : OrdOp) (v : Value) : ordering op VNull v = Ok (VBool false).
Proof. reflexivity. Qed.

Lemma ordering_null_r (op : OrdOp) (v : Value) : ordering op v VNull = Ok (VBool false).
Proof. destruct v; reflexivity. Qed.

(** C5.  An ordering comparison with a NULL operand is BOOL false, whatever
    the operator and the other operand: on values, and for a comparison
    expression whose operands evaluate to values one of which is NULL. *)
Theorem ordering_with_null_is_false (op : OrdOp) :
  (forall v, ordering op VNull v = Ok (VBool false)
             /\ ordering op v VNull = Ok (VBool false))
  /\ (forall sigma row a b x y,
        eval sigma row a = Ok x -> eval sigma row b = Ok y ->
        x = VNull \/ y = VNull ->
        eval sigma row (EOrd op a b) = Ok (VBool false)).
Proof.
  split.
  - intros v. split; [apply ordering_null_l|apply ordering_null_r].
  - intros sigma row a b x y Ha Hb Hnull. simpl. rewrite Ha, Hb. simpl.
    destruct Hnull as [->| ->]; [apply ordering_null_l|apply ordering_null_r].
Qed.

Section WithCap.
Variable cap : nat.

Lemma exec_block_cons (s : Stmt) (rest : list Stmt) (sigma : Scope) :
  exec_block cap (s :: rest) sigma
  = match exec cap s sigma with
    | (sigma', Normal) => exec_block cap rest sigma'
    | out => out
    end.
Proof. reflexivity. Qed.

Lemma exec_STry (body handler : list Stmt) (sigma : Scope) :
  exec cap (STry body handler) sigma
  = match exec_block cap body sigma with
    | (sigma', Error k m) =>
        if catchable k then exec_block cap handler sigma' else (sigma', Error k m)
    | out => out
    end.
Proof. reflexivity. Qed.

Lemma exec_SWhile (c : Expr) (body : list Stmt) (sigma : Scope) :
  exec cap (SWhile c body) sigma
  = while_loop (fun s' => eval s' [] c) (exec_block cap body) cap sigma.
Proof. reflexivity. Qed.

Lemma catchable_iff (k : ErrorKind) : catchable k = true <-> category k <> Fatal.
Proof. unfold catchable. destruct (category k); split; congruence. Qed.

(** C6.  An error raised inside a TRY block that is not Fatal (DivisionByZero
    and every other Runtime-category error among them) is cleared and the
    ON_ERROR block runs in its place, from the scope the TRY block left;
    when the ON_ERROR block completes, the statements after TRY/END run
    next. *)
Theorem TRY_catches_runtime_errors
    (body handler rest : list Stmt) (sigma sigma1 : Scope) (k : ErrorKind) (msg : string) :
  exec_block cap body sigma = (sigma1, Error k msg) ->
  category k <> Fatal ->
  category DivisionByZero = Runtime
  /\ exec cap (STry body handler) sigma = exec_block cap handler sigma1
  /\ (forall sigma2,
        exec_block cap handler sigma1 = (sigma2, Normal) ->
        exec_block cap (STry body handler :: rest) sigma = exec_block cap rest sigma2).
Proof.
  intros Hbody Hk. apply catchable_iff in Hk.
  assert (Htry : exec cap (STry body handler) sigma = exec_block cap handler sigma1).
  { rewrite exec_STry, Hbody, Hk. reflexivity. }
  split; [reflexivity|]. split; [exact Htry|].
  intros sigma2 Hh. rewrite exec_block_cons, Htry, Hh. reflexivity.
Qed.

Lemma while_loop_exceeds (cond : Scope -> Result Value) (body : Scope -> Scope * Signal)
    (n : nat) (sigma sigma' : Scope) :
  iterates cond body n sigma sigma' ->
  cond sigma' = Ok (VBool true) ->
  while_loop cond body n sigma = (sigma', Error LoopLimitExceeded "loop limit exceeded").
Proof.
  induction 1 as [sigma|k sigma sigma1 sigma2 sig Hc Hb Hsig _ IH]; intros Hlast.
  - simpl. rewrite Hlast. reflexivity.
  - simpl. rewrite Hc, Hb. destruct Hsig as [-> | ->]; auto.
Qed.

(** A loop that stops by itself within the cap is not disturbed by it. *)
Lemma while_loop_within (cond : Scope -> Result Value) (body : Scope -> Scope * Signal)
    (k n : nat) (sigma sigma' : Scope) :
  iterates cond body k sigma sigma' ->
  (k <= n)%nat ->
  cond sigma' = Ok (VBool false) ->
  while_loop cond body n sigma = (sigma', Normal).
Proof.
  intros Hit. revert n.
  induction Hit as [sigma|k sigma sigma1 sigma2 sig Hc Hb Hsig _ IH]; intros n Hle Hlast.
  - destruct n; simpl; rewrite Hlast; reflexivity.
  - destruct n as [|n]; [lia|]. simpl. rewrite Hc, Hb.
    destruct Hsig as [-> | ->]; apply IH; auto; lia.
Qed.

Lemma TRY_passes_fatal (body handler : list Stmt) (sigma sigma1 : Scope)
    (k : ErrorKind) (msg : string) :
  exec_block cap body sigma = (sigma1, Error k msg) ->
  category k = Fatal ->
  exec cap (STry body handler) sigma = (sigma1, Error k msg).
Proof.
  intros Hbody Hk. rewrite exec_STry, Hbody.
  unfold catchable. rewrite Hk. reflexivity.
Qed.

Lemma exec_SIf (c : Expr) (thenB elseB : list Stmt) (sigma : Scope) :
  exec cap (SIf c thenB elseB) sigma
  = match eval sigma [] c with
    | Ok (VBool true) => exec_block cap thenB sigma
    | Ok (VBool false) => exec_block cap elseB sigma
    | Ok _ => (sigma, Error TypeMismatch "IF condition must be BOOL")
    | Err k m => (sigma, Error k m)
    end.
Proof. reflexivity. Qed.

(** An error of a statement ends the block it sits in. *)
Lemma exec_block_raises (pre post : list Stmt) (s : Stmt)
    (sigma0 sigma1 sigma' : Scope) (k : ErrorKind) (msg : string) :
  exec_block cap pre sigma0 = (sigma1, Normal) ->
  exec cap s sigma1 = (sigma', Error k msg) ->
  exec_block cap (pre ++ s :: post) sigma0 = (sigma', Error k msg).
Proof.
  revert sigma0. induction pre as [|x pre IH]; intros sigma0 Hpre Hs.
  - injection Hpre as ->. simpl app. rewrite exec_block_cons, Hs. reflexivity.
  - simpl app. rewrite exec_block_cons in *.
    destruct (exec cap x sigma0) as [sigmax [| | | |]]; try discriminate Hpre.
    by apply IH.
Qed.

(** An error of the body ends the loop, whichever iteration it is. *)
Lemma while_loop_raises (cond : Scope -> Result Value) (body : Scope -> Scope * Signal)
    (j n : nat) (sigma sigma0 sigma' : Scope) (k : ErrorKind) (msg : string) :
  iterates cond body j sigma sigma0 ->
  (j < n)%nat ->
  cond sigma0 = Ok (VBool true) ->
  body sigma0 = (sigma', Error k msg) ->
  while_loop cond body n sigma = (sigma', Error k msg).
Proof.
  intros Hit. revert n.
  induction Hit as [sigma|j sigma sigma1 sigma2 sig Hc Hb Hsig _ IH]; intros n Hlt Hlast Herr.
  - destruct n as [|n]; [lia|]. simpl. rewrite Hlast, Herr. reflexivity.
  - destruct n as [|n]; [lia|]. simpl. rewrite Hc, Hb.
    destruct Hsig as [-> | ->]; apply IH; auto; lia.
Qed.

(** A Fatal error of a statement is the outcome of every statement it is
    nested in: no TRY around it catches it and nothing after it runs. *)
Lemma plug_passes_fatal (path : list Layer) (s : Stmt)
    (sigma sigmah sigma' : Scope) (k : ErrorKind) (msg : string) :
  reaches cap path s sigma sigmah ->
  exec cap s sigmah = (sigma', Error k msg) ->
  category k = Fatal ->
  exec cap (plug path s) sigma = (sigma', Error k msg).
Proof.
  intros Hreach Hs Hk. revert sigma Hreach.
  induction path as [|[f pre post] path IH]; intros sigma Hreach.
  - simpl in Hreach. subst sigmah. exact Hs.
  - destruct Hreach as (sigma0 & sigma1 & Hopen & Hpre & Hreach).
    simpl frame in *. simpl before in *. simpl after in *.
    pose proof (exec_block_raises pre post _ _ _ _ _ _ Hpre (IH _ Hreach)) as Hblock.
    change (plug (mkLayer f pre post :: path) s)
      with (fill f (pre ++ plug path s :: post)).
    set (b := pre ++ plug path s :: post) in *.
    destruct f as [c elseB|c thenB|c|handler|body]; simpl in Hopen; unfold fill.
    + destruct Hopen as [Hc ->]. rewrite exec_SIf, Hc. exact Hblock.
    + destruct Hopen as [Hc ->]. rewrite exec_SIf, Hc. exact Hblock.
    + destruct Hopen as (j & Hj & Hit & Hc). rewrite exec_SWhile.
      by apply (while_loop_raises _ _ j cap sigma sigma0).
    + subst sigma0. by apply TRY_passes_fatal.
    + destruct Hopen as (k0 & m0 & Hbody & Hk0).
      rewrite exec_STry, Hbody.
      apply catchable_iff in Hk0. rewrite Hk0. exact Hblock.
Qed.

(** An error that ends a step ends the run of the steps. *)
Lemma run_steps_raises (done todo : list Step) (st : Step)
    (inputs sigma0 sigma' : Scope) (k : ErrorKind) (msg : string) :
  run_steps cap done inputs = (sigma0, Normal) ->
  exec_block cap (step_body st) sigma0 = (sigma', Error k msg) ->
  run_steps cap (done ++ st :: todo) inputs = (sigma', Error k msg).
Proof.
  revert inputs. induction done as [|x done IH]; intros inputs Hdone Hst.
  - injection Hdone as ->. simpl. rewrite Hst. reflexivity.
  - simpl in *.
    destruct (exec_block cap (step_body x) inputs) as [sigmax [| | | |]];
      try discriminate Hdone.
    by apply IH.
Qed.

(** C8.  A WHILE loop whose condition still holds after as many iterations
    as the configured cap allows ends in the loop-limit error, which is
    Fatal.  Wherever the loop sits in a step (inside TRY blocks, ON_ERROR
    blocks, IF branches or other loops, with statements before and after
    it at every level), no enclosing TRY/ON_ERROR catches that error: the
    whole nest of statements ends in it, and the run of the pipeline
    aborts with it. *)
Theorem WHILE_loop_limit_is_fatal
    (p : Pipeline) (done todo : list Step) (st : Step)
    (pre post : list Stmt) (path : list Layer) (c : Expr) (body : list Stmt)
    (inputs sigma0 sigma1 sigmah sigma' : Scope) :
  steps p = done ++ st :: todo ->
  step_body st = pre ++ plug path (SWhile c body) :: post ->
  run_steps cap done inputs = (sigma0, Normal) ->
  exec_block cap pre sigma0 = (sigma1, Normal) ->
  reaches cap path (SWhile c body) sigma1 sigmah ->
  iterates (fun s' => eval s' [] c) (exec_block cap body) cap sigmah sigma' ->
  eval sigma' [] c = Ok (VBool true) ->
  category LoopLimitExceeded = Fatal
  /\ exec cap (SWhile c body) sigmah
     = (sigma', Error LoopLimitExceeded "loop limit exceeded")
  /\ exec cap (plug path (SWhile c body)) sigma1
     = (sigma', Error LoopLimitExceeded "loop limit exceeded")
  /\ run cap p inputs = Err LoopLimitExceeded "loop limit exceeded".
Proof.
  intros Hsteps Hbody Hdone Hpre Hreach Hit Hlast.
  assert (Hw : exec cap (SWhile c body) sigmah
               = (sigma', Error LoopLimitExceeded "loop limit exceeded")).
  { rewrite exec_SWhile. by apply while_loop_exceeds. }
  assert (Hnest : exec cap (plug path (SWhile c body)) sigma1
                  = (sigma', Error LoopLimitExceeded "loop limit exceeded")).
  { by apply (plug_passes_fatal path _ sigma1 sigmah). }
  split; [reflexivity|]. split; [exact Hw|]. split; [exact Hnest|].
  unfold run. rewrite Hsteps.
  rewrite (run_steps_raises done todo st inputs sigma0 sigma'
             LoopLimitExceeded "loop limit exceeded" Hdone).
  - reflexivity.
  - rewrite Hbody. by apply (exec_block_raises pre post _ sigma0 sigma1).
Qed.

End WithCap.

Lemma compute_all_empty (cs : list Compute) :
  compute_all cs [] = Ok (map (fun c => (alias c, empty_group_value (fn c))) cs).
Proof.
  induction cs as [|[f a] cs IH]; [reflexivity|].
  simpl. rewrite IH. destruct f; reflexivity.
Qed.

(** C7.  AGGREGATE over an empty table yields exactly one row, never an
    error: COUNT() is 0 in it and SUM and AVG are NULL; in particular
    COMPUTE COUNT() alone gives the single row with count 0.  More
    generally SUM and AVG are NULL over any group without a non-NULL value
    in the column. *)
Theorem AGGREGATE_empty_input (cols : list string) (cs : list Compute) :
  AGGREGATE cols cs []
  = Ok [zip cols (map (fun _ => VNull) cols)
        ++ map (fun c => (alias c, empty_group_value (fn c))) cs]
  /\ (forall a, AGGREGATE [] [mkCompute COUNT a] [] = Ok [[(a, VInt 0)]])
  /\ (forall c, apply_agg COUNT [] = Ok (VInt 0)
                /\ apply_agg (SUM c) [] = Ok VNull
                /\ apply_agg (AVG c) [] = Ok VNull)
  /\ (forall c rows, column_values c rows = Ok [] ->
        apply_agg (SUM c) rows = Ok VNull /\ apply_agg (AVG c) rows = Ok VNull).
Proof.
  split; [|split; [|split]].
  - unfold AGGREGATE, group_row. simpl. rewrite compute_all_empty. reflexivity.
  - reflexivity.
  - intros c. repeat split.
  - intros c rows H. unfold apply_agg. rewrite H. split; reflexivity.
Qed.

(** *** The properties at concrete inputs *)

Example FILTER_active_orders :
  FILTER ∅ is_active orders
  = Ok [ [("id", VInt 1); ("status", VString "active"); ("amount", VInt 150)];
         [("id", VInt 3); ("status", VString "active"); ("amount", VNull)] ].
Proof. reflexivity. Qed.

(** The row with a NULL amount does not pass an ordering predicate. *)
Example FILTER_large_orders :
  FILTER ∅ large_amount orders
  = Ok [ [("id", VInt 2); ("status", VString "closed"); ("amount", VInt 300)] ].
Proof. reflexivity. Qed.

(** Witness of C4. *)
Lemma FILTER_keeps_true_rows_witness :
  exists t',
    FILTER ∅ is_active orders = Ok t'
    /\ t' = List.filter (keeps ∅ is_active) orders
    /\ t' `sublist_of` orders.
Proof.
  eexists. split; [reflexivity|].
  destruct (FILTER_keeps_true_rows ∅ is_active orders _ eq_refl) as (H1 & H2 & _).
  split; [exact H1|exact H2].
Defined.

(** Witness of C5. *)
Lemma ordering_with_null_is_false_witness :
  eval ∅ [("amount", VNull)] (EOrd Ge (EIdent "amount") (ELit (VInt 200)))
  = Ok (VBool false).
Proof.
  apply (proj2 (ordering_with_null_is_false Ge)
           ∅ [("amount", VNull)] (EIdent "amount") (ELit (VInt 200)) VNull (VInt 200)).
  - reflexivity.
  - reflexivity.
  - left. reflexivity.
Defined.

Example AGGREGATE_by_status :
  AGGREGATE ["status"] [mkCompute (SUM "amount") "total"; mkCompute COUNT "cnt"] orders
  = Ok [ [("status", VString "active"); ("total", VInt 150); ("cnt", VInt 2)];
         [("status", VString "closed"); ("total", VInt 300); ("cnt", VInt 1)] ].
Proof. reflexivity. Qed.

(** Witness of C7. *)
Lemma AGGREGATE_empty_input_witness :
  column_values "amount" [[("amount", VNull)]] = Ok []
  /\ apply_agg (SUM "amount") [[("amount", VNull)]] = Ok VNull
  /\ apply_agg (AVG "amount") [[("amount", VNull)]] = Ok VNull.
Proof.
  split; [reflexivity|].
  destruct (AGGREGATE_empty_input [] []) as (_ & _ & _ & H).
  apply (H "amount" [[("amount", VNull)]]). reflexivity.
Defined.

(** Witness of C6: [1 / 0] inside TRY is caught, the handler runs, and the
    statement after TRY/END runs. *)
Lemma TRY_catches_runtime_errors_witness :
  exec_block 10 risky ∅ = (∅, Error DivisionByZero "division by zero")
  /\ category DivisionByZero <> Fatal
  /\ exec_block 10 (STry risky recover :: carry_on) ∅
     = (<["done" := VBool true]> (<["failed" := VBool true]> ∅), Normal).
Proof.
  split; [reflexivity|]. split; [discriminate|].
  destruct (TRY_catches_runtime_errors 10 risky recover carry_on ∅ ∅
              DivisionByZero "division by zero" eq_refl) as (_ & _ & H).
  - discriminate.
  - rewrite (H (<["failed" := VBool true]> ∅) eq_refl). reflexivity.
Defined.

Example guarded_pipeline_completes : run 10 guarded_pipeline ∅ = Ok (VBool true).
Proof. vm_compute. reflexivity. Qed.

(** Witness of C8: [WHILE TRUE: END] under a cap of 3, inside an IF inside
    a TRY, in the second step of a pipeline. *)
Lemma WHILE_loop_limit_is_fatal_witness :
  run 3 nested_pipeline ∅ = Err LoopLimitExceeded "loop limit exceeded".
Proof.
  set (s1 := <["done" := VBool true]> (∅ : Scope)).
  set (s2 := <["failed" := VBool true]> s1).
  set (s3 := <["done" := VBool true]> s2).
  set (s4 := <["failed" := VBool true]> s3).
  apply (WHILE_loop_limit_is_fatal 3 nested_pipeline
           [mkStep "prepare" carry_on] [mkStep "finish" carry_on]
           (mkStep "spin" (recover ++ plug nesting spin :: carry_on))
           recover carry_on nesting (ELit (VBool true)) []
           ∅ s1 s2 s4 s4).
  - reflexivity.
  - reflexivity.
  - reflexivity.
  - reflexivity.
  - exists s2, s3. split; [reflexivity|]. split; [reflexivity|].
    exists s3, s4. split; [by split|]. split; reflexivity.
  - do 3 (eapply iterates_S; [reflexivity|reflexivity|left; reflexivity|]).
    apply iterates_O.
  - reflexivity.
Defined.

Example runaway_pipeline_aborts :
  run 1000 runaway_pipeline ∅ = Err LoopLimitExceeded "loop limit exceeded".
Proof. vm_compute. reflexivity. Qed.

End CoreFacts.
(** ** More facts about extension.ts *)

Module ExtensionExtras.
Import Vscode Extension Samples Reading Shapes.

Lemma append_assoc (a b c : string) : (a +:+ b) +:+ c = a +:+ (b +:+ c).
Proof.
  induction a as [|x a IH]; [reflexivity|].
  change (String x ((a +:+ b) +:+ c) = String x (a +:+ (b +:+ c))).
  by rewrite IH.
Qed.

Lemma length_append (a b : string) :
  String.length (a +:+ b) = (String.length a + String.length b)%nat.
Proof.
  induction a as [|x a IH]; [reflexivity|].
  change (S (String.length (a +:+ b)) = S (String.length a + String.length b)).
  by rewrite IH.
Qed.

Lemma append_inv_tail (a b t : string) : a +:+ t = b +:+ t -> a = b.
Proof.
  revert b. induction a as [|x a IH]; intros [|y b] H.
  - reflexivity.
  - apply (f_equal String.length) in H. rewrite !length_append in H.
    simpl in H. lia.
  - apply (f_equal String.length) in H. rewrite !length_append in H.
    simpl in H. lia.
  - change (String x (a +:+ t) = String y (b +:+ t)) in H.
    injection H as -> H. f_equal. by apply IH.
Qed.

(** Two strings without a double quote that are followed by one agree when
    the whole texts agree. *)
Lemma split_at_dquote (a b r s : string) :
  has_dquote a = false -> has_dquote b = false ->
  a +:+ dquote +:+ r = b +:+ dquote +:+ s -> a = b /\ r = s.
Proof.
  revert b. induction a as [|x a IH]; intros [|y b] Ha Hb H.
  - change (String (ascii_of_nat 34) r = String (ascii_of_nat 34) s) in H.
    injection H as H. auto.
  - change (String (ascii_of_nat 34) r = String y (b +:+ dquote +:+ s)) in H.
    injection H as <- _. discriminate Hb.
  - change (String x (a +:+ dquote +:+ r) = String (ascii_of_nat 34) s) in H.
    injection H as -> _. discriminate Ha.
  - change (String x (a +:+ dquote +:+ r) = String y (b +:+ dquote +:+ s)) in H.
    injection H as -> H. simpl in Ha, Hb.
    apply orb_false_iff in Ha as [_ Ha]. apply orb_false_iff in Hb as [_ Hb].
    destruct (IH b Ha Hb H) as [-> ->]. auto.
Qed.

Lemma truthy_false (s : string) : truthy s = false <-> s = EmptyString.
Proof. destruct s; simpl; split; congruence. Qed.








Lemma collection_after_callback `{RT : Runtime} (d : TextDocument) (r : ExecResult)
    (ed : Editor) :
  diagnosticCollection (apply_effects ed (checkCallback d r))
  = <[fsPath d := checkDiagnostics r]> (diagnosticCollection ed).
Proof.
  unfold checkCallback. rewrite ExtensionFacts.parsedDiagnostics_notes.
  destruct (reports_ok r); reflexivity.
Qed.

Lemma checkAnkaFile_not_nil `{RT : Runtime} (settings : Settings) (d : TextDocument) :
  checkAnkaFile settings d <> [].
Proof. discriminate. Qed.

Section WithRuntime.
Context `{RT : Runtime}.
Variable settings : Settings.


(** X2.  The check leaves the document without any diagnostic exactly when
    the subprocess did not fail and either printed nothing on stdout, or
    stderr stayed empty while the [try] block gave up at once (stdout is
    not JSON, is [null], or lists a first entry without message), or the
    JSON has status ['ok'], or it lists no entry.  In particular stderr
    alone never produces a diagnostic. *)
Theorem checkDiagnostics_empty_iff (r : ExecResult) :
  checkDiagnostics r = [] <-> passes_for_clean r.
Proof.
  unfold passes_for_clean. split.
  - intros H.
    assert (He : exec_error r = None).
    { destruct (exec_error r) eqn:E; [|reflexivity].
      exfalso. apply (ExtensionFacts.checkDiagnostics_error r); [by rewrite E|exact H]. }
    split; [exact He|].
    rewrite (ExtensionFacts.checkDiagnostics_no_error r He) in H.
    unfold parsedDiagnostics, reports_ok, unreadable, lists_nothing, caught in *.
    destruct (truthy (stdout r)) eqn:Hout; [|by left]. right.
    destruct (JSON_parse (stdout r)) as [v|] eqn:Hp.
    + destruct (check_result v) as [result|] eqn:Hres.
      * revert H. case_bool_decide as Hst; [by right; left|].
        destruct (errors result) as [[|e es]|] eqn:Herr; simpl.
        -- intros _. right. right. exists v, result. eauto.
        -- destruct (toDiagnostic e) as [d|] eqn:Hd.
           ++ destruct (pushDiagnostics es) as [ds [|]]; simpl; discriminate.
           ++ simpl. intros H. left. split.
              ** right. right. exists v, result, e, es.
                 apply ExtensionFacts.toDiagnostic_None, truthy_false in Hd. eauto 10.
              ** destruct (truthy (stderr r)); [discriminate H|reflexivity].
        -- intros _. right. right. exists v, result. eauto.
      * left. split; [right; left; eauto|].
        destruct (truthy (stderr r)); [discriminate H|reflexivity].
    + left. split; [by left|].
      destruct (truthy (stderr r)); [discriminate H|reflexivity].
  - intros [He H]. rewrite (ExtensionFacts.checkDiagnostics_no_error r He).
    destruct H as [H|[[Hun Hs]|[Hok|Hn]]].
    + unfold parsedDiagnostics. rewrite H. reflexivity.
    + destruct (truthy (stdout r)) eqn:Hout.
      * rewrite (ExtensionFacts.parsedDiagnostics_unreadable r Hout Hun).
        unfold caught. rewrite Hs. reflexivity.
      * unfold parsedDiagnostics. rewrite Hout. reflexivity.
    + by apply ExtensionFacts.parsedDiagnostics_ok.
    + by apply ExtensionFacts.parsedDiagnostics_nothing.
Qed.

(** X3.  Completed checks compose by overwriting: after two checks of one
    document the collection is as if only the later one had run, and checks
    of two different documents do not disturb each other, in whichever
    order they complete. *)
Theorem checkCallback_last_wins (d1 d2 : TextDocument) (r1 r2 : ExecResult) (ed : Editor) :
  diagnosticCollection
    (apply_effects (apply_effects ed (checkCallback d1 r1)) (checkCallback d1 r2))
  = diagnosticCollection (apply_effects ed (checkCallback d1 r2))
  /\ (fsPath d1 <> fsPath d2 ->
      diagnosticCollection
        (apply_effects (apply_effects ed (checkCallback d1 r1)) (checkCallback d2 r2))
      = diagnosticCollection
          (apply_effects (apply_effects ed (checkCallback d2 r2)) (checkCallback d1 r1))).
Proof.
  rewrite !collection_after_callback. split.
  - apply insert_insert_eq.
  - intros Hne. by apply insert_insert_ne.
Qed.

Lemma run_command_line_inj (python f i f' i' : string) :
  has_dquote f = false ->
  has_dquote f' = false ->
  run_command_line python f i = run_command_line python f' i' ->
  f = f' /\ i = i'.
Proof.
  intros Hf Hf' H. unfold run_command_line, quoted in H.
  apply ExtensionFacts.append_inv_head in H. apply ExtensionFacts.append_inv_head in H.
  rewrite !append_assoc in H.
  change (dquote +:+ ?x) with (String (ascii_of_nat 34) x) in H.
  injection H as H.
  apply split_at_dquote in H as [-> H]; [|assumption..].
  split; [reflexivity|].
  apply ExtensionFacts.append_inv_head in H.
  change (String (ascii_of_nat 34) (i +:+ dquote +:+ " --json")
          = String (ascii_of_nat 34) (i' +:+ dquote +:+ " --json")) in H.
  injection H as H. by apply append_inv_tail in H.
Qed.

(** X5.  For the configured interpreter, the run command line determines
    its two path arguments whenever the pipeline paths contain no double
    quote: different (pipeline, input) pairs give different command lines. *)
Theorem run_command_line_injective (python f i f' i' : string) :
  has_dquote f = false ->
  has_dquote f' = false ->
  f <> f' \/ i <> i' ->
  run_command_line python f i <> run_command_line python f' i'.
Proof.
  intros Hf Hf' Hne H.
  destruct (run_command_line_inj python f i f' i' Hf Hf' H) as [-> ->].
  destruct Hne as [Hne|Hne]; by apply Hne.
Qed.

(** X6.  The command line does not escape double quotes: a quote inside the
    pipeline path moves the boundary between the arguments, so that two
    different (pipeline, input) pairs spell the same run command. *)
Theorem run_command_line_quote_shift (python f i j : string) :
  run_command_line python (f +:+ dquote +:+ " " +:+ dquote +:+ i) j
  = run_command_line python f (i +:+ dquote +:+ " " +:+ dquote +:+ j).
Proof.
  unfold run_command_line, quoted. by rewrite !append_assoc.
Qed.







(** X9.  Saving a document has no effect at all exactly when it is not an
    Anka document or check-on-save is switched off; otherwise saving it
    does what [checkAnkaFile] does.  With the setting left unset the check
    runs. *)
Theorem onSave_silent_iff (document : TextDocument) :
  (onSave settings document = []
   <-> languageId document <> "anka" \/ checkOnSave settings = Some false)
  /\ (onSave settings document <> [] ->
      onSave settings document = checkAnkaFile settings document).
Proof.
  unfold onSave. case_bool_decide as Hl.
  - destruct (checkOnSave settings) as [[|]|]; simpl; split;
      try (split; [intros H; discriminate H|intros [H|H]; [contradiction|discriminate H]]);
      try (split; [auto|reflexivity]); congruence.
  - split; [split; auto|congruence].
Qed.

End WithRuntime.

(** *** The facts at concrete inputs *)


(** A checker that only writes to stderr and exits with status 0 passes for
    clean. *)
Example stderr_alone_is_ignored :
  checkDiagnostics (RT := stub garbled_output None EmptyString)
                   (mkExecResult None EmptyString "warning: deprecated syntax")
  = [].
Proof. reflexivity. Qed.

(** Saving an edited document from the check command checks it twice. *)
Example check_of_edited_document :
  spawned (apply_effects some_editor
             (checkCommand (RT := stub clean_output (Some clean_result) clean_pretty)
                           default_settings (Some edited_doc)))
  = [ quoted "python" +:+ " -m anka check " +:+ quoted "/work/etl/sales.anka"
        +:+ " --json";
      quoted "python" +:+ " -m anka check " +:+ quoted "/work/etl/sales.anka"
        +:+ " --json" ].
Proof. vm_compute. reflexivity. Qed.

Example check_of_edited_document_notes :
  notifications
    (apply_effects some_editor
       (checkCommand (RT := stub clean_output (Some clean_result) clean_pretty)
                     default_settings (Some edited_doc)))
  = ["Anka: No syntax errors"; "Anka: No syntax errors"].
Proof. vm_compute. reflexivity. Qed.

(** Witness of X5: two pipelines run on the same input. *)
Lemma run_command_line_injective_witness :
  run_command_line "python" "/work/etl/sales.anka" "in.json"
  <> run_command_line "python" "/work/etl/stock.anka" "in.json".
Proof.
  apply (run_command_line_injective "python" "/work/etl/sales.anka" "in.json"
                                    "/work/etl/stock.anka" "in.json").
  - reflexivity.
  - reflexivity.
  - left. discriminate.
Defined.

(** Two different pairs of paths with one command line. *)
Example quote_shift_sample :
  run_command_line "python" ("a" +:+ dquote +:+ " " +:+ dquote +:+ "b") "c"
  = run_command_line "python" "a" ("b" +:+ dquote +:+ " " +:+ dquote +:+ "c").
Proof. reflexivity. Qed.

End ExtensionExtras.
(** ** Facts about the hover and completion providers *)

Module ProvidersFacts.
Import Vscode Extension Providers.

Lemma property_Some (table : list (string * string)) (k v : string) :
  property table k = Some v -> k ∈ keys table.
Proof.
  induction table as [|[k' v'] table IH]; simpl; [discriminate|].
  destruct (String.eqb k' k) eqn:E.
  - apply String.eqb_eq in E as ->. intros _. left.
  - intros H. right. by apply IH.
Qed.

Lemma provideHover_setting (show : option bool) (word : option string) :
  provideHover show word
  = if default true show then provideHover None word else None.
Proof. unfold provideHover. destruct show as [[|]|]; reflexivity. Qed.

Lemma provideHover_word (w : string) :
  provideHover None (Some w)
  = if truthy_opt (property KEYWORD_DOCS w)
    then Some (hoverText w "keyword" (default EmptyString (property KEYWORD_DOCS w)))
    else if truthy_opt (property FUNCTION_DOCS w)
    then Some (hoverText w "function" (default EmptyString (property FUNCTION_DOCS w)))
    else None.
Proof. reflexivity. Qed.

Lemma truthy_opt_Some (o : option string) :
  truthy_opt o = true -> exists d, o = Some d /\ default EmptyString o = d.
Proof. destruct o as [d|]; [eauto|discriminate]. Qed.

(** X10.  Every word the completion provider offers can be hovered: its
    label is made of capital letters and underscores, which is what the
    hover's word pattern matches, and hovering it shows the item's own
    documentation under a heading with the item's name and kind (or
    nothing, when hover documentation is switched off). *)
Theorem completions_are_hoverable (item : CompletionItem) (show : option bool) :
  item ∈ provideCompletionItems ->
  is_word (label item) = true
  /\ provideHover show (Some (label item))
     = if default true show
       then Some (hoverText (label item) (kind_name (kind item)) (documentation item))
       else None.
Proof.
  intros Hin. rewrite provideHover_setting.
  assert (H : Forall (fun it =>
                is_word (label it) = true
                /\ provideHover None (Some (label it))
                   = Some (hoverText (label it) (kind_name (kind it)) (documentation it)))
              provideCompletionItems).
  { apply (bool_decide_unpack _). vm_compute. exact I. }
  rewrite Forall_forall in H. destruct (H item Hin) as [Hw Hh].
  split; [exact Hw|]. rewrite Hh. reflexivity.
Qed.

(** X11.  The hover shows nothing when hover documentation is switched off
    or when there is no word under the cursor; and whenever it shows
    something for a word, the completion provider offers an item with that
    word as label, and the hover is that item's documentation under the
    heading with the word and the item's kind. *)
Theorem hover_only_for_completions :
  (forall word, provideHover (Some false) word = None)
  /\ (forall show, provideHover show None = None)
  /\ (forall show w text,
        provideHover show (Some w) = Some text ->
        default true show = true
        /\ exists item,
             item ∈ provideCompletionItems
             /\ label item = w
             /\ text = hoverText w (kind_name (kind item)) (documentation item)).
Proof.
  split; [reflexivity|]. split; [intros [[|]|]; reflexivity|].
  intros show w text. rewrite provideHover_setting.
  destruct (default true show); [|discriminate]. intros H.
  split; [reflexivity|]. rewrite provideHover_word in H.
  destruct (truthy_opt (property KEYWORD_DOCS w)) eqn:Ek.
  - apply truthy_opt_Some in Ek as (d & Hd & Hdef).
    exists (keywordItem w). split; [|split; [reflexivity|]].
    + unfold provideCompletionItems. apply elem_of_app. left.
      apply list_elem_of_fmap. exists w. split; [reflexivity|].
      by apply property_Some in Hd.
    + injection H as <-. reflexivity.
  - destruct (truthy_opt (property FUNCTION_DOCS w)) eqn:Ef; [|discriminate H].
    apply truthy_opt_Some in Ef as (d & Hd & Hdef).
    exists (functionItem w). split; [|split; [reflexivity|]].
    + unfold provideCompletionItems. apply elem_of_app. right.
      apply list_elem_of_fmap. exists w. split; [reflexivity|].
      by apply property_Some in Hd.
    + injection H as <-. reflexivity.
Qed.

(** X12.  The completion provider offers each label once; every item has a
    non-empty documentation; keywords insert their own label, and so do
    IS_NULL and IS_NOT_NULL, while every other function inserts a call
    snippet, its name followed by [($1)]. *)
Theorem completions_insert_text :
  NoDup (map label provideCompletionItems)
  /\ forall item,
       item ∈ provideCompletionItems ->
       truthy (documentation item) = true
       /\ insertText item
          = match kind item with
            | KindKeyword => None
            | KindFunction =>
                if bool_decide (label item = "IS_NULL" \/ label item = "IS_NOT_NULL")
                then None
                else Some (label item +:+ "($1)")
            end.
Proof.
  split.
  - apply (bool_decide_unpack _). vm_compute. exact I.
  - intros item Hin.
    assert (Hdoc : Forall (fun it => truthy (documentation it) = true)
                     provideCompletionItems).
    { apply (bool_decide_unpack _). vm_compute. exact I. }
    rewrite Forall_forall in Hdoc. split; [by apply Hdoc|].
    unfold provideCompletionItems in Hin.
    apply elem_of_app in Hin as [Hin|Hin];
      apply list_elem_of_fmap in Hin as (w & -> & _); [reflexivity|].
    simpl. apply (f_equal (fun b : bool => if b then None else Some (w +:+ "($1)"))).
    apply bool_decide_ext. rewrite !elem_of_cons, elem_of_nil. tauto.
Qed.

(** *** The providers at concrete inputs *)

Example table_sizes : length ALL_KEYWORDS = 66%nat /\ length ALL_FUNCTIONS = 49%nat.
Proof. split; reflexivity. Qed.

Example hover_ASSERT :
  provideHover None (Some "ASSERT")
  = Some ("**ASSERT** (keyword)" +:+ newline +:+ newline
          +:+ "Validates a condition." +:+ newline +:+ newline
          +:+ "Syntax: `ASSERT condition MESSAGE " +:+ dquote +:+ "error text"
          +:+ dquote +:+ "`").
Proof. vm_compute. reflexivity. Qed.

Example hover_lowercase : provideHover None (Some "filter") = None.
Proof. vm_compute. reflexivity. Qed.

(** Witness of X10. *)
Lemma completions_are_hoverable_witness :
  functionItem "SUM" ∈ provideCompletionItems
  /\ provideHover (Some true) (Some "SUM")
     = Some ("**SUM** (function)" +:+ newline +:+ newline
             +:+ "Sums values." +:+ newline +:+ newline +:+ "Syntax: `SUM(column)`").
Proof.
  assert (Hin : functionItem "SUM" ∈ provideCompletionItems).
  { unfold provideCompletionItems. apply elem_of_app. right.
    apply list_elem_of_fmap. exists "SUM". split; [reflexivity|].
    apply list_elem_of_In. vm_compute. tauto. }
  split; [exact Hin|].
  destruct (completions_are_hoverable (functionItem "SUM") (Some true) Hin) as [_ H].
  exact H.
Defined.

End ProvidersFacts.
